(** * gphoto_capture_control: capture orchestration for a tethered DSLR

    A shallow embedding of [gphoto_capture_control.py].  The script drives a
    camera through the [gphoto2] command line, a relay on GPIO pin 2, the
    wall clock and the file system.  All of these are external, so the
    embedding threads an explicit [World] through a small state-and-exception
    monad and takes the behaviour of the outside (command output, clock
    readings, file contents, [float()], [strftime]) from an [Env] record.

    Conventions.
    - Python [str] is [string]; text is assumed to be ASCII.
    - A Python [float] is the rational it stands for, a [Q].  The sums,
      differences and quotients of the schedulers are taken exactly; the
      product of the conversion to milliseconds is rounded to the nearest
      double ([Py.round_double]), as the interpreter rounds it.
    - A Python [dict] with string keys is a [gmap string string].
    - [logger.debug] only writes to the log and is left out; [print] is kept
      as an event, since it is the only signal [readConfFile] gives.
    - Exceptions are values of [exn]; the world reached when an exception
      is raised is kept, so that one can ask what state the relay is left in. *)

From Stdlib Require Import QArith Ascii String Lqa.
From stdpp Require Import gmap strings list sorting pretty.

Open Scope string_scope.

(** ** Python string primitives *)

Module Py.

(** [str.isspace] restricted to ASCII: TAB, LF, VT, FF, CR, FS, GS, RS, US
    and the space character. *)
Definition is_space (c : ascii) : bool :=
  let n := nat_of_ascii c in
  ((9 <=? n)%nat && (n <=? 13)%nat) || ((28 <=? n)%nat && (n <=? 32)%nat).

Fixpoint lstrip (s : string) : string :=
  match s with
  | "" => ""
  | String c r => if is_space c then lstrip r else s
  end.

Fixpoint rstrip (s : string) : string :=
  match s with
  | "" => ""
  | String c r =>
      match rstrip r with
      | "" => if is_space c then "" else String c ""
      | r' => String c r'
      end
  end.

(** [s.strip()] *)
Definition strip (s : string) : string := rstrip (lstrip s).

(** [s.split(sep)] for a one-character separator; the result is never
    empty: [''.split('=') == ['']]. *)
Fixpoint split (sep : ascii) (s : string) : list string :=
  match s with
  | "" => [""]
  | String c r =>
      if Ascii.eqb c sep then "" :: split sep r
      else match split sep r with
           | h :: t => String c h :: t
           | [] => [String c ""]
           end
  end.

(** [f.readlines()]: the lines of a text, each with its terminator. *)
Fixpoint readlines (s : string) : list string :=
  match s with
  | "" => []
  | String c r =>
      if Ascii.eqb c "010"%char then String c "" :: readlines r
      else match readlines r with
           | h :: t => String c h :: t
           | [] => [String c ""]
           end
  end.

(** [pat in s] *)
Fixpoint contains (pat s : string) : bool :=
  String.prefix pat s ||
  match s with
  | "" => false
  | String _ r => contains pat r
  end.

(** [c in s] for a single character. *)
Fixpoint has_char (c : ascii) (s : string) : bool :=
  match s with
  | "" => false
  | String x r => Ascii.eqb x c || has_char c r
  end.

(** [s[:s.find(c)]] when [c] occurs in [s]: the text before its first
    occurrence. *)
Fixpoint before (c : ascii) (s : string) : string :=
  match s with
  | "" => ""
  | String x r => if Ascii.eqb x c then "" else String x (before c r)
  end.

(** [s[s.find(c)+1:]]: the text after the first occurrence of [c]; when
    [c] does not occur, [find] is [-1] and the slice is all of [s]. *)
Fixpoint after_aux (c : ascii) (s : string) : option string :=
  match s with
  | "" => None
  | String x r => if Ascii.eqb x c then Some r else after_aux c r
  end.

Definition after (c : ascii) (s : string) : string :=
  default s (after_aux c s).

(** [s[:-1]] *)
Fixpoint drop_last (s : string) : string :=
  match s with
  | "" => ""
  | String _ "" => ""
  | String x r => String x (drop_last r)
  end.

(** [s[:s.find(c)]] in general: when [c] does not occur, [find] is [-1]
    and the slice drops the last character. *)
Definition upto_find (c : ascii) (s : string) : string :=
  if has_char c s then before c s else drop_last s.

(** The order of [str] comparison: lexicographic on code points. *)
Fixpoint leb (a b : string) : bool :=
  match a, b with
  | "", _ => true
  | String _ _, "" => false
  | String x a', String y b' =>
      let nx := N_of_ascii x in
      let ny := N_of_ascii y in
      if (nx <? ny)%N then true
      else if (nx =? ny)%N then leb a' b' else false
  end.

Definition le (a b : string) : Prop := leb a b = true.

#[global] Instance le_dec a b : Decision (le a b).
Proof. unfold le. apply _. Defined.

(** [sorted(l)] on strings. *)
Definition sorted (l : list string) : list string := merge_sort le l.

(** [int(x)] on a float: truncation towards zero. *)
Definition trunc (x : Q) : Z := Z.quot (Qnum x) (Zpos (Qden x)).

(** The integer nearest to [n / d] for [0 <= n], ties to the even one. *)
Definition round_half_even (n : Z) (d : positive) : Z :=
  let k := (n / Zpos d)%Z in
  match (2 * (n `mod` Zpos d) ?= Zpos d)%Z with
  | Lt => k
  | Gt => (k + 1)%Z
  | Eq => if Z.even k then k else (k + 1)%Z
  end.

(** [floor (log2 (n / d))] for [0 < n]. *)
Definition floor_log2 (n : Z) (d : positive) : Z :=
  let e := (Z.log2 n - Z.log2 (Zpos d))%Z in
  let below := if (0 <=? e)%Z then (n <? Zpos d * 2 ^ e)%Z
               else (n * 2 ^ (- e) <? Zpos d)%Z in
  if below then (e - 1)%Z else e.

(** The result of a float operation whose exact value is [x]: the nearest
    IEEE 754 binary64 number, ties to even, with 53 bits of precision above
    [2 ^ -1022] and multiples of [2 ^ -1074] below; [None] stands for an
    infinite result, which is what [x] rounds to from [2 ^ 1024 - 2 ^ 970]
    on. *)
Definition round_double (x : Q) : option Q :=
  let n := Z.abs (Qnum x) in
  if (n =? 0)%Z then Some 0%Q
  else
    let d := Qden x in
    let p := Z.max (floor_log2 n d - 52) (-1074) in
    let m := if (0 <=? p)%Z then round_half_even n (d * Z.to_pos (2 ^ p))
             else round_half_even (n * 2 ^ (- p)) d in
    if (0 <=? p)%Z && (2 ^ 1024 <=? m * 2 ^ p)%Z then None
    else Some (Qred (if (0 <=? p)%Z
                     then inject_Z (Z.sgn (Qnum x) * m * 2 ^ p)
                     else Qmake (Z.sgn (Qnum x) * m) (Z.to_pos (2 ^ (- p))))).

End Py.

(** ** Worlds, events and the effect monad *)

Inductive exn :=
| ValueError | KeyError | IndexError | NameError | ZeroDivisionError | OSError
| OverflowError.

(** A command handed to [subprocess]: a shell line ([shell=True]) or an
    argument vector. *)
Inductive cmd :=
| Shell (line : string)
| Argv (args : list string).

(** What the script does to the outside, in the order it does it. *)
Inductive event :=
| EGpioSetup
| EGpioOut (high : bool)
| ESleep (secs : Q)
| ERun (c : cmd)
| EPrint (msg : string).

Inductive result (A : Type) :=
| Ok (a : A)
| Raise (e : exn).

Arguments Ok {A} a.
Arguments Raise {A} e.

Section Model.

Context {D : Type}.

(** The outside world: [D] is the state of the camera, the process table
    and the file system together. *)
Record Env := {
  exec : cmd → D → string * D;          (* stdout of a finished subprocess *)
  listdir : D → list string;            (* os.listdir() *)
  chdir : string → D → option D;        (* os.chdir(path) *)
  read_file : string → D → option string; (* open(path).read(), newlines translated *)
  clock : nat → Q;                      (* the n-th reading of time.time() *)
  to_float : string → option Q;         (* float(s): the double that s reads as *)
  strftime : Q → string                 (* strftime("%Y-%m-%d_%H:%M:%S", localtime(t)) *)
}.

Record World := {
  relay : bool;          (* level of BCM pin 2: true is HIGH, the light is on *)
  dev : D;
  ticks : nat;           (* number of clock readings taken so far *)
  trace : list event
}.

Definition set_relay (b : bool) (w : World) : World :=
  {| relay := b; dev := dev w; ticks := ticks w; trace := trace w |}.

Definition set_dev (d : D) (w : World) : World :=
  {| relay := relay w; dev := d; ticks := ticks w; trace := trace w |}.

Definition tick (w : World) : World :=
  {| relay := relay w; dev := dev w; ticks := S (ticks w); trace := trace w |}.

Definition emit (e : event) (w : World) : World :=
  {| relay := relay w; dev := dev w; ticks := ticks w; trace := trace w ++ [e] |}.

Definition M (A : Type) : Type := World → result A * World.

#[global] Instance M_ret : MRet M := λ A a w, (Ok a, w).

#[global] Instance M_bind : MBind M := λ A B f m w,
  match m w with
  | (Ok a, w') => f a w'
  | (Raise e, w') => (Raise e, w')
  end.

Definition raise {A} (e : exn) : M A := λ w, (Raise e, w).

(** Lift a pure computation that may raise. *)
Definition lift {A} (r : result A) : M A := λ w, (r, w).

(** [for x in l: body(x)] *)
Fixpoint for_each {A} (l : list A) (body : A → M unit) : M unit :=
  match l with
  | [] => mret tt
  | x :: r => body x ;; for_each r body
  end.

(** [for i in range(0, n): body] where [body] does not use [i]. *)
Fixpoint for_range (n : nat) (body : M unit) : M unit :=
  match n with
  | O => mret tt
  | S k => body ;; for_range k body
  end.

(** The same loop when the body may [return] from the enclosing function:
    the body answers [false] when it has returned. *)
Fixpoint for_range_return (n : nat) (body : M bool) : M unit :=
  match n with
  | O => mret tt
  | S k => go_on ← body; if go_on : bool then for_range_return k body else mret tt
  end.

Variable env : Env.

(** *** Library calls *)

Definition time_time : M Q := λ w, (Ok (clock env (ticks w)), tick w).

(** [time.sleep(d)] raises [ValueError] for a negative [d]. *)
Definition time_sleep (d : Q) : M unit := λ w,
  if Qle_bool 0 d then (Ok tt, emit (ESleep d) w) else (Raise ValueError, w).

Definition GPIO_setup : M unit := λ w,
  (Ok tt, emit EGpioSetup (set_relay false w)).

Definition GPIO_output (high : bool) : M unit := λ w,
  (Ok tt, emit (EGpioOut high) (set_relay high w)).

Definition subprocess_run (c : cmd) : M string := λ w,
  let '(out, d) := exec env c (dev w) in (Ok out, emit (ERun c) (set_dev d w)).

Definition os_listdir : M (list string) := λ w, (Ok (listdir env (dev w)), w).

Definition os_chdir (path : string) : M unit := λ w,
  match chdir env path (dev w) with
  | Some d => (Ok tt, set_dev d w)
  | None => (Raise OSError, w)
  end.

Definition open_read (path : string) : M string := λ w,
  match read_file env path (dev w) with
  | Some text => (Ok text, w)
  | None => (Raise OSError, w)
  end.

Definition print (msg : string) : M unit := λ w, (Ok tt, emit (EPrint msg) w).

Definition float (s : string) : M Q := λ w,
  match to_float env s with
  | Some q => (Ok q, w)
  | None => (Raise ValueError, w)
  end.

Definition now_stamp (t : Q) : string := strftime env t.

(** *** Camera link *)

Definition lines_of (output : string) : list string :=
  Py.split "010"%char output.

Definition rows_of (output : string) : list string :=
  map Py.strip (lines_of output).

Definition camera_found (output : string) : bool :=
  existsb (Py.contains "Canon EOS 80D") (lines_of output).

Definition verifyCameraConnect : M bool :=
  output ← subprocess_run (Shell "gphoto2 --auto-detect");
  mret (camera_found output).

(** The test of [verifyBulbMode] on one stripped row of the output. *)
Definition bulb_row (row : string) : bool :=
  negb (String.length row =? 0)%nat &&
  Py.contains "Current:" row && Py.contains "bulb" row.

(** [verified] starts [False] and is set to [True] by every row that
    passes the test; it is never reset. *)
Definition bulb_verified (output : string) : bool :=
  existsb bulb_row (rows_of output).

Definition verifyBulbMode : M bool :=
  output ← subprocess_run (Shell "gphoto2 --get-config shutterspeed");
  mret (bulb_verified output).

Definition killMonitorProcess : M unit :=
  output ← subprocess_run (Shell "ps aux | grep 'gvfs' | awk '{print $2}'");
  for_each (rows_of output) (λ row,
    if negb (String.length row =? 0)%nat then
      proc_lookup ← subprocess_run (Argv ["ps"; "-p"; row]);
      for_each (rows_of proc_lookup) (λ line,
        if negb (String.length line =? 0)%nat && negb (Py.contains "PID" line)
        then
          let pid := Py.upto_find " "%char line in
          subprocess_run (Argv ["kill"; pid]) ;; mret tt
        else mret tt)
    else mret tt).

(** *** Relay *)

Definition initRelayControl : M bool :=
  GPIO_setup ;;
  time_sleep 2 ;;
  mret true.

Definition runCloseoutOps : M unit :=
  GPIO_output false.

(** *** Configuration file *)

(** One turn of the parsing loop of [readConfFile] on a stripped line. *)
Definition conf_line (conf : gmap string string) (line : string) :
    result (gmap string string) :=
  if String.eqb (Py.strip line) "" then Ok conf
  else
    let line := if Py.has_char "#"%char line
                then Py.before "#"%char line else line in
    match map Py.strip (Py.split "="%char line) with
    | [key; value] => Ok (<[key := value]> conf)
    | _ => Raise ValueError
    end.

Fixpoint conf_lines (conf : gmap string string) (lines : list string) :
    result (gmap string string) :=
  match lines with
  | [] => Ok conf
  | line :: rest =>
      match conf_line conf line with
      | Ok conf' => conf_lines conf' rest
      | Raise e => Raise e
      end
  end.

Definition parse_conf (text : string) : result (gmap string string) :=
  conf_lines ∅ (map Py.strip (Py.readlines text)).

(** [sorted(conf.keys())] *)
Definition sorted_keys (conf : gmap string string) : list string :=
  Py.sorted (map_to_list conf).*1.

Definition single_keys : list string :=
  ["aperture"; "iso"; "lights"; "shutterspeed"; "subject"].

(** The list the [series] branch compares with, as it is written. *)
Definition series_keys : list string :=
  ["aperture"; "duration"; "interval"; "iso"; "shutterspeed"; "subject";
   "lights"].

Definition dual_series_keys : list string :=
  ["aperture_dark"; "aperture_light"; "duration"; "interval"; "iso_dark";
   "iso_light"; "shutterspeed_dark"; "shutterspeed_light"; "subject"].

Definition msg_count : string :=
  "Mismatch between number of required and specified configurable parameters!".

Definition msg_missing : string := "Missing a required configurable parameter!".

Definition check_keys (n : nat) (required : list string)
    (conf : gmap string string) : list string :=
  (if negb (size conf =? n)%nat then [msg_count] else []) ++
  (if negb (bool_decide (sorted_keys conf = required))
   then [msg_missing] else []).

(** What the checks at the end of [readConfFile] print. *)
Definition conf_warnings (capture_profile : string)
    (conf : gmap string string) : list string :=
  if String.eqb capture_profile "single" then check_keys 5 single_keys conf
  else if String.eqb capture_profile "series" then check_keys 7 series_keys conf
  else if String.eqb capture_profile "dual_series"
       then check_keys 9 dual_series_keys conf
  else ["Unreachable code!"].

Definition readConfFile (filename capture_profile : string) :
    M (gmap string string) :=
  text ← open_read filename;
  conf ← lift (parse_conf text);
  for_each (conf_warnings capture_profile conf) print ;;
  mret conf.

(** *** Parameter tables *)

(** One turn of the loading loop on a line as [readlines] gives it. *)
Definition dict_line (d : gmap string string) (line : string) :
    result (gmap string string) :=
  if Py.contains "INDEX" line then Ok d
  else
    match Py.split "009"%char line with
    | index :: value :: _ => Ok (<[index := Py.strip value]> d)
    | _ => Raise IndexError
    end.

Fixpoint dict_lines (d : gmap string string) (lines : list string) :
    result (gmap string string) :=
  match lines with
  | [] => Ok d
  | line :: rest =>
      match dict_line d line with
      | Ok d' => dict_lines d' rest
      | Raise e => Raise e
      end
  end.

Definition load_dict (filename : string) : M (gmap string string) :=
  text ← open_read filename;
  lift (dict_lines ∅ (Py.readlines text)).

Definition loadconfigurableParameterDicts
    (aperture_dict_filename iso_dict_filename : string) :
    M (gmap string string * gmap string string) :=
  aperture_dict ← load_dict aperture_dict_filename;
  iso_dict ← load_dict iso_dict_filename;
  mret (aperture_dict, iso_dict).

(** [value in dictionary.values()] *)
Definition in_values (value : string) (dictionary : gmap string string) : bool :=
  existsb (String.eqb value) (map snd (map_to_list dictionary)).

(** *** Parameter programming *)

Definition aperture_dict_filename : string := "/home/pi/pipeline/80D_aperture_dict".
Definition iso_dict_filename : string := "/home/pi/pipeline/80D_iso_dict".

Definition get_setting_cmd (setting : string) : cmd :=
  Argv ["gphoto2"; "--get-config"; setting].

Definition set_setting_cmd (setting value : string) : cmd :=
  Argv ["gphoto2"; "--set-config-value"; setting +:+ "=" +:+ value].

(** [row[row.find(':')+1:].strip()] *)
Definition current_of (row : string) : string :=
  Py.strip (Py.after ":"%char row).

Definition reports (value row : string) : bool :=
  Py.contains "Current:" row && String.eqb (current_of row) value.

(** First read-back loop: returns [True] at the first row that reports
    [value]; other rows are passed over. *)
Definition already_set (output value : string) : bool :=
  existsb (reports value) (rows_of output).

(** Last read-back loop: the first row holding [Current:] decides. *)
Definition verify_set (output value : string) : bool :=
  match List.find (Py.contains "Current:") (rows_of output) with
  | Some row => String.eqb (current_of row) value
  | None => false
  end.

(** The part of [setParameterByValue] that talks to the camera, after the
    checks of its arguments: read, write if needed, read back. *)
Definition program_setting (setting value : string) : M bool :=
  output ← subprocess_run (get_setting_cmd setting);
  if already_set output value then mret true
  else
    output ← subprocess_run (set_setting_cmd setting value);
    if negb (length (rows_of output) =? 1)%nat then mret false
    else
      output ← subprocess_run (get_setting_cmd setting);
      mret (verify_set output value).

Definition setParameterByValue (setting value : string) : M bool :=
  if negb (bool_decide (setting ∈ ["aperture"; "iso"])) then mret false
  else
    dicts ← loadconfigurableParameterDicts
              aperture_dict_filename iso_dict_filename;
    let '(aperture_dict, iso_dict) := dicts in
    dictionary ← (if String.eqb setting "aperture" then mret aperture_dict
                  else if String.eqb setting "iso" then mret iso_dict
                  else print "unreachable" ;; raise NameError);
    if negb (in_values value dictionary) then mret false
    else program_setting setting value.

(** *** One exposure *)

Definition tag_of (exposure : Q) : string :=
  if Qle_bool 5 exposure then "_dark" else "_light".

Definition image_name_of
    (subject_name timestamp tag exposure_time aperture iso : string) : string :=
  subject_name +:+ "_" +:+ timestamp +:+ tag +:+ "_exp" +:+ exposure_time
    +:+ "s_" +:+ "_f" +:+ aperture +:+ "_iso" +:+ iso.

(** The name [singleCapture] gives the image; [float] may raise. *)
Definition image_name
    (subject_name timestamp exposure_time aperture iso : string) :
    option string :=
  q ← to_float env exposure_time;
  Some (image_name_of subject_name timestamp (tag_of q)
          exposure_time aperture iso).

(** [float(x)] for a number [x]: the nearest double; an integer too large
    for a double raises [OverflowError]. *)
Definition float_of_number (x : Q) : result Q :=
  match Py.round_double x with
  | Some y => Ok y
  | None => Raise OverflowError
  end.

(** [int(x * 1000)] for a float [x]: the product is rounded to the nearest
    double and then truncated; [int] of an infinite product raises
    [OverflowError]. *)
Definition to_ms (secs : Q) : result Z :=
  match Py.round_double (secs * 1000)%Q with
  | Some y => Ok (Py.trunc y)
  | None => Raise OverflowError
  end.

Definition capture_cmd (image_name : string) (exposure_ms wait_ms : Z) : cmd :=
  Argv ["gphoto2";
        "--filename"; image_name +:+ ".jpg";
        "--set-config-index"; "eosremoterelease=5";
        "--wait-event=" +:+ pretty exposure_ms +:+ "ms";
        "--set-config-index"; "eosremoterelease=4";
        "--wait-event-and-download=" +:+ pretty wait_ms +:+ "ms"].

(** [exposure_time] is the string read from the configuration, so
    [str(exposure_time)] is the string itself; [wait_time] is a number. *)
Definition singleCapture (wait_time : Q)
    (exposure_time aperture iso subject_name : string)
    (timestamp : option string) (lights : string) : M bool :=
  (if String.eqb lights "on"
   then GPIO_output true ;; time_sleep 3
   else mret tt) ;;
  timestamp ← match timestamp with
              | None => ts ← time_time; mret (now_stamp ts)
              | Some t => mret t
              end;
  seconds ← float exposure_time;
  let tag := tag_of seconds in
  let image_name :=
    image_name_of subject_name timestamp tag exposure_time aperture iso in
  ok ← setParameterByValue "aperture" aperture;
  if negb ok then mret false
  else
    ok ← setParameterByValue "iso" iso;
    if negb ok then mret false
    else
      wait_secs ← lift (float_of_number wait_time);
      wait_ms ← lift (to_ms wait_secs);
      seconds ← float exposure_time;
      exposure_ms ← lift (to_ms seconds);
      subprocess_run (capture_cmd image_name exposure_ms wait_ms) ;;
      files ← os_listdir;
      mret (bool_decide (image_name +:+ ".jpg" ∈ files)).

(** *** Schedulers *)

Definition seriesCycle (interval wait_time : Q)
    (exposure_time aperture iso subject_name lights : string) : M unit :=
  ts ← time_time;
  let timestamp := now_stamp ts in
  call_time ← time_time;
  singleCapture wait_time exposure_time aperture iso subject_name
    (Some timestamp) lights ;;
  return_time ← time_time;
  let sleep_interval := (interval - (return_time - call_time))%Q in
  time_sleep sleep_interval.

Definition seriesCapture (interval duration : Q) (cycles : Z) (wait_time : Q)
    (exposure_time aperture iso subject_name lights : string) : M unit :=
  for_range (Z.to_nat cycles)
    (seriesCycle interval wait_time exposure_time aperture iso
       subject_name lights).

(** One turn of the loop of [dualSeriesCapture]; [false] is the [return]
    taken when the light exposure failed. *)
Definition dualSeriesCycle (interval wait_time : Q)
    (exposure_time_light exposure_time_dark : string)
    (aperture_light aperture_dark iso_light iso_dark subject_name : string) :
    M bool :=
  GPIO_output false ;;
  call_time ← time_time;
  let timestamp := now_stamp call_time in
  singleCapture wait_time exposure_time_dark aperture_dark iso_dark
    subject_name (Some timestamp) "off" ;;
  return_time ← time_time;
  GPIO_output true ;;
  let sleep_interval := (interval - (return_time - call_time))%Q in
  time_sleep (sleep_interval - 2)%Q ;;
  success ← singleCapture wait_time exposure_time_light aperture_light
              iso_light subject_name (Some timestamp) "off";
  if negb success then mret false
  else time_sleep 2 ;; mret true.

Definition dualSeriesCapture (interval duration : Q) (cycles : Z)
    (wait_time : Q) (exposure_time_light exposure_time_dark : string)
    (aperture_light aperture_dark iso_light iso_dark subject_name : string) :
    M unit :=
  for_range_return (Z.to_nat cycles)
    (dualSeriesCycle interval wait_time exposure_time_light
       exposure_time_dark aperture_light aperture_dark iso_light iso_dark
       subject_name).

(** *** The script *)

(** [conf[key]] *)
Definition item (conf : gmap string string) (key : string) : M string :=
  match conf !! key with
  | Some v => mret v
  | None => raise KeyError
  end.

(** The body of [if __name__ == "__main__"].  The profile is a constant
    of the script that the operator edits; it is a parameter here. *)
Definition main (capture_profile : string) : M unit :=
  let proceed := true in
  proceed ← (if proceed : bool then initRelayControl else mret proceed);
  (if proceed : bool then killMonitorProcess else mret tt) ;;
  proceed ← (if proceed : bool then verifyCameraConnect else mret proceed);
  proceed ← (if proceed : bool then verifyBulbMode else mret proceed);
  let conf_filename := capture_profile +:+ ".conf" in
  conf ← readConfFile conf_filename capture_profile;
  subject_name ← item conf "subject";
  let wait_time := 10%Q in
  (if String.eqb capture_profile "single" then
     shutterspeed ← item conf "shutterspeed";
     aperture ← item conf "aperture";
     iso ← item conf "iso";
     lights ← item conf "lights";
     singleCapture wait_time shutterspeed aperture iso subject_name
       None lights ;;
     mret tt
   else if String.eqb capture_profile "series"
           || String.eqb capture_profile "dual_series" then
     interval ← item conf "interval" ≫= float;
     duration ← item conf "duration" ≫= float;
     let interval := (interval * 60)%Q in
     let duration := (duration * 3600)%Q in
     cycles ← (if Qeq_bool interval 0 then raise ZeroDivisionError
               else mret (Py.trunc (duration / interval)%Q));
     os_chdir "images" ;;
     ts ← time_time;
     let batchname := subject_name +:+ "_" +:+ now_stamp ts in
     subprocess_run (Shell ("mkdir " +:+ batchname)) ;;
     os_chdir batchname ;;
     if String.eqb capture_profile "series" then
       exposure_time ← item conf "shutterspeed";
       aperture ← item conf "aperture";
       iso ← item conf "iso";
       lights ← item conf "lights";
       seriesCapture interval duration cycles wait_time exposure_time
         aperture iso subject_name lights
     else
       exposure_time_light ← item conf "shutterspeed_light";
       exposure_time_dark ← item conf "shutterspeed_dark";
       aperture_light ← item conf "aperture_light";
       aperture_dark ← item conf "aperture_dark";
       iso_light ← item conf "iso_light";
       iso_dark ← item conf "iso_dark";
       dualSeriesCapture interval duration cycles wait_time
         exposure_time_light exposure_time_dark aperture_light
         aperture_dark iso_light iso_dark subject_name
   else mret tt) ;;
  runCloseoutOps.

End Model.

Arguments Env : clear implicits.
Arguments World : clear implicits.

(** ** A simulated camera

    A small executable outside world, used to run the script on concrete
    inputs: a camera that remembers its aperture and ISO, delivers or
    withholds the image of each capture according to a list of outcomes,
    and a clock that advances by a fixed step at every reading. *)

Module Sim.

Definition nl : string := String "010"%char "".
Definition tab : string := String "009"%char "".

Definition unlines (l : list string) : string :=
  foldr (λ line acc, line +:+ nl +:+ acc) "" l.

Record state := {
  files : list string;       (* the working directory *)
  shutterspeed : string;
  aperture : string;
  iso : string;
  outcomes : list bool;      (* does the n-th coming capture leave a file? *)
  conf_text : string         (* the text of the configuration file *)
}.

Definition report (label current : string) : string :=
  unlines ["Label: " +:+ label; "Readonly: 0"; "Type: RADIO";
           "Current: " +:+ current; "END"].

Definition set_param (setting value : string) (d : state) : state :=
  {| files := files d;
     shutterspeed := shutterspeed d;
     aperture := if String.eqb setting "aperture" then value else aperture d;
     iso := if String.eqb setting "iso" then value else iso d;
     outcomes := outcomes d;
     conf_text := conf_text d |}.

Definition capture (file : string) (d : state) : state :=
  {| files := if hd false (outcomes d) then file :: files d else files d;
     shutterspeed := shutterspeed d;
     aperture := aperture d;
     iso := iso d;
     outcomes := tl (outcomes d);
     conf_text := conf_text d |}.

Definition exec (c : cmd) (d : state) : string * state :=
  match c with
  | Shell line =>
      if String.eqb line "gphoto2 --auto-detect" then
        (unlines ["Model                          Port";
                  "----------------------------------------------------------";
                  "Canon EOS 80D                  usb:001,004"], d)
      else if String.eqb line "gphoto2 --get-config shutterspeed" then
        (report "Shutter Speed" (shutterspeed d), d)
      else ("", d)
  | Argv ["gphoto2"; "--get-config"; setting] =>
      if String.eqb setting "aperture" then (report "Aperture" (aperture d), d)
      else if String.eqb setting "iso" then (report "ISO Speed" (iso d), d)
      else ("", d)
  | Argv ["gphoto2"; "--set-config-value"; assignment] =>
      match Py.split "="%char assignment with
      | [setting; value] => ("", set_param setting value d)
      | _ => ("", d)
      end
  | Argv ("gphoto2" :: "--filename" :: file :: _) => ("", capture file d)
  | Argv _ => ("", d)
  end.

Definition table (values : list string) : string :=
  unlines (("INDEX" +:+ tab +:+ "VALUE")
           :: imap (λ i v, pretty i +:+ tab +:+ v) values).

Definition read_file (path : string) (d : state) : option string :=
  if bool_decide (path ∈ ["single.conf"; "series.conf"; "dual_series.conf"])
  then Some (conf_text d)
  else if String.eqb path aperture_dict_filename
  then Some (table ["2.8"; "4"; "5.6"; "7.1"; "8"])
  else if String.eqb path iso_dict_filename
  then Some (table ["Auto"; "100"; "200"; "400"; "800"])
  else None.

Fixpoint digits (acc : Z) (s : string) : option Z :=
  match s with
  | "" => Some acc
  | String c r =>
      let n := Z.of_nat (nat_of_ascii c) in
      if ((48 <=? n) && (n <=? 57))%Z then digits (10 * acc + (n - 48))%Z r
      else None
  end.

Definition number (s : string) : option Z :=
  if String.eqb s "" then None else digits 0 s.

(** The value of an unsigned decimal numeral such as [10] or [0.05]. *)
Definition decimal (s : string) : option Q :=
  match Py.split "."%char s with
  | [whole] => n ← number whole; Some (inject_Z n)
  | [whole; frac] =>
      n ← number whole;
      m ← number frac;
      Some (inject_Z n + inject_Z m / inject_Z (10 ^ Z.of_nat (String.length frac)))%Q
  | _ => None
  end.

(** [float] on such numerals, within the range of a double: the double
    nearest to the value. *)
Definition to_float (s : string) : option Q :=
  x ← decimal s; Py.round_double x.

Definition two (n : Z) : string :=
  if (n <? 10)%Z then "0" +:+ pretty n else pretty n.

(** A UTC clock face for readings within the first day of 1970. *)
Definition strftime (t : Q) : string :=
  let s := (Py.trunc t `mod` 86400)%Z in
  "1970-01-01_" +:+ two (s `div` 3600)%Z +:+ ":"
    +:+ two ((s `mod` 3600) `div` 60)%Z +:+ ":" +:+ two (s `mod` 60)%Z.

(** The clock shows [step * n] seconds at its [n]-th reading. *)
Definition env (step : Q) : Env state :=
  @Build_Env state exec files (λ _ d, Some d) read_file
    (λ n, (step * inject_Z (Z.of_nat n))%Q) to_float strftime.

Definition camera (conf : list string) (results : list bool) : state :=
  {| files := [];
     shutterspeed := "bulb";
     aperture := "5.6";
     iso := "100";
     outcomes := results;
     conf_text := unlines conf |}.

Definition boot (d : state) : World state :=
  {| relay := false; dev := d; ticks := 0; trace := [] |}.

(** The same world with other parameter tables. *)
Definition read_tables (apertures isos : list string)
    (path : string) (d : state) : option string :=
  if bool_decide (path ∈ ["single.conf"; "series.conf"; "dual_series.conf"])
  then Some (conf_text d)
  else if String.eqb path aperture_dict_filename then Some (table apertures)
  else if String.eqb path iso_dict_filename then Some (table isos)
  else None.

Definition env_with (apertures isos : list string) (step : Q) : Env state :=
  @Build_Env state exec files (λ _ d, Some d) (read_tables apertures isos)
    (λ n, (step * inject_Z (Z.of_nat n))%Q) to_float strftime.

Definition dual_conf (interval duration : string) : list string :=
  ["subject = leaf";
   "interval = " +:+ interval;
   "duration = " +:+ duration;
   "shutterspeed_dark = 10";
   "shutterspeed_light = 2";
   "aperture_dark = 2.8";
   "aperture_light = 7.1";
   "iso_dark = 400";
   "iso_light = 100"].

End Sim.

(** ** Frames

    What a computation may do to the outside is stated as a relation
    between the world it starts in and the world it leaves, in every
    outcome, exceptions included. *)

(** The level of pin 2 after the GPIO calls recorded in [l], from [b]. *)
Definition level (b : bool) (l : list event) : bool :=
  foldl (λ b e, match e with
                | EGpioSetup => false
                | EGpioOut high => high
                | _ => b
                end) b l.

Definition keeps {D A} (R : relation (World D)) (m : M A) : Prop :=
  ∀ w r w', m w = (r, w') → R w w'.

(** The trace has grown by events that satisfy [P], and the relay is at
    the level the new GPIO events give. *)
Definition emits {D} (P : event → Prop) : relation (World D) := λ w w',
  ∃ l, trace w' = (trace w ++ l)%list ∧ Forall P l ∧
       relay w' = level (relay w) l.

Definition is_run (e : event) : Prop :=
  match e with ERun _ => True | _ => False end.

Definition not_high (e : event) : Prop := e ≠ EGpioOut true.

(** Every shutter command among the events asks for a file that [allowed]
    admits: the shutter command is the one whose first option is
    [--filename]. *)
Definition asks_for (allowed : string → Prop) (e : event) : Prop :=
  ∀ file rest,
    e = ERun (Argv ("gphoto2" :: "--filename" :: file :: rest)) → allowed file.

(** The file an exposure asks for: the name built from its arguments, with
    the tag of the exposure time that [float] reads. *)
Definition file_of {D} (env : Env D)
    (subject_name timestamp exposure_time aperture iso : string)
    (file : string) : Prop :=
  ∃ q, to_float env exposure_time = Some q ∧
       file = image_name_of subject_name timestamp (tag_of q) exposure_time
                aperture iso +:+ ".jpg".

(** ** The two halves of the script *)

Section Script.

Context {D : Type} (env : Env D).

(** The start of the script, up to the camera checks; the answer is the
    value [proceed] is left with. *)
Definition checks : M bool :=
  let proceed := true in
  proceed ← (if proceed : bool then initRelayControl else mret proceed);
  (if proceed : bool then killMonitorProcess env else mret tt) ;;
  proceed ← (if proceed : bool then verifyCameraConnect env else mret proceed);
  if proceed : bool then verifyBulbMode env else mret proceed.

(** The rest of the script, from the reading of the configuration file to
    closeout. *)
Definition run_profile (capture_profile : string) : M unit :=
  let conf_filename := capture_profile +:+ ".conf" in
  conf ← readConfFile env conf_filename capture_profile;
  subject_name ← item conf "subject";
  let wait_time := 10%Q in
  (if String.eqb capture_profile "single" then
     shutterspeed ← item conf "shutterspeed";
     aperture ← item conf "aperture";
     iso ← item conf "iso";
     lights ← item conf "lights";
     singleCapture env wait_time shutterspeed aperture iso subject_name
       None lights ;;
     mret tt
   else if String.eqb capture_profile "series"
           || String.eqb capture_profile "dual_series" then
     interval ← item conf "interval" ≫= float env;
     duration ← item conf "duration" ≫= float env;
     let interval := (interval * 60)%Q in
     let duration := (duration * 3600)%Q in
     cycles ← (if Qeq_bool interval 0 then raise ZeroDivisionError
               else mret (Py.trunc (duration / interval)%Q));
     os_chdir env "images" ;;
     ts ← time_time env;
     let batchname := subject_name +:+ "_" +:+ now_stamp env ts in
     subprocess_run env (Shell ("mkdir " +:+ batchname)) ;;
     os_chdir env batchname ;;
     if String.eqb capture_profile "series" then
       exposure_time ← item conf "shutterspeed";
       aperture ← item conf "aperture";
       iso ← item conf "iso";
       lights ← item conf "lights";
       seriesCapture env interval duration cycles wait_time exposure_time
         aperture iso subject_name lights
     else
       exposure_time_light ← item conf "shutterspeed_light";
       exposure_time_dark ← item conf "shutterspeed_dark";
       aperture_light ← item conf "aperture_light";
       aperture_dark ← item conf "aperture_dark";
       iso_light ← item conf "iso_light";
       iso_dark ← item conf "iso_dark";
       dualSeriesCapture env interval duration cycles wait_time
         exposure_time_light exposure_time_dark aperture_light
         aperture_dark iso_light iso_dark subject_name
   else mret tt) ;;
  runCloseoutOps.

End Script.

(** ** Parameter tables that cannot be read *)

(** A row of a table that cannot be read: no [INDEX] in it and no TAB. *)
Definition bad_row (line : string) : Prop :=
  Py.contains "INDEX" line = false ∧ Py.has_char "009" line = false.

(** * Properties *)

(** ** The effect monad *)

Section Monad.

Context {D : Type}.

Lemma bind_unfold {A B} (m : M (D:=D) A) (f : A → M B) w :
  (m ≫= f) w =
  match m w with
  | (Ok a, w') => f a w'
  | (Raise e, w') => (Raise e, w')
  end.
Proof. reflexivity. Qed.

Lemma bind_Ok {A B} (m : M (D:=D) A) (f : A → M B) w a w1 :
  m w = (Ok a, w1) → (m ≫= f) w = f a w1.
Proof. intros H. rewrite bind_unfold, H. reflexivity. Qed.

Lemma bind_Raise {A B} (m : M (D:=D) A) (f : A → M B) w e w1 :
  m w = (Raise e, w1) → (m ≫= f) w = (Raise e, w1).
Proof. intros H. rewrite bind_unfold, H. reflexivity. Qed.

Lemma bind_Ok_inv {A B} (m : M (D:=D) A) (f : A → M B) w b w' :
  (m ≫= f) w = (Ok b, w') →
  ∃ a w1, m w = (Ok a, w1) ∧ f a w1 = (Ok b, w').
Proof.
  rewrite bind_unfold. destruct (m w) as [[a | e] w1]; intros H.
  - exists a, w1. split; [reflexivity | exact H].
  - discriminate H.
Qed.

Lemma ret_unfold {A} (a : A) (w : World D) : (mret a : M A) w = (Ok a, w).
Proof. reflexivity. Qed.

End Monad.

(** Peel the binds of a run that ended normally, keeping the last step. *)
Ltac last_step H :=
  repeat (apply bind_Ok_inv in H; destruct H as (? & ? & _ & H)).

(** ** Closeout *)

Lemma runCloseoutOps_off {D} (w w' : World D) r :
  runCloseoutOps w = (r, w') →
  r = Ok tt ∧ relay w' = false ∧ last (trace w') = Some (EGpioOut false).
Proof.
  intros H. unfold runCloseoutOps, GPIO_output in H.
  injection H as <- <-. cbn. rewrite last_snoc. auto.
Qed.

(** C1, as the script has it: a run of [main] that ends without an
    exception (the loop ran to its end, or [dualSeriesCapture] returned
    early after a failed light exposure) ends with [runCloseoutOps], so the
    relay is LOW and the last thing done to the outside is driving pin 2
    LOW.  Nothing is promised for a run that an exception ends: there is no
    finalizer. *)
Theorem main_normal_exit_light_off {D} (env : Env D) capture_profile w w' :
  main env capture_profile w = (Ok tt, w') →
  relay w' = false ∧ last (trace w') = Some (EGpioOut false).
Proof.
  intros H. unfold main in H. cbv zeta in H.
  last_step H.
  apply runCloseoutOps_off in H. tauto.
Qed.

(** A run in which the first light exposure leaves no image: the loop is
    abandoned in cycle 1 of 3, [main] still reaches closeout. *)
Lemma main_normal_exit_light_off_witness :
  let w0 := Sim.boot (Sim.camera (Sim.dual_conf "1" "0.05") [true; false]) in
  let w' := (main (Sim.env 1) "dual_series" w0).2 in
  main (Sim.env 1) "dual_series" w0 = (Ok tt, w') ∧
  relay w' = false ∧ last (trace w') = Some (EGpioOut false).
Proof.
  intros w0 w'.
  assert (H : main (Sim.env 1) "dual_series" w0 = (Ok tt, w'))
    by (vm_compute; reflexivity).
  split; [exact H |].
  exact (main_normal_exit_light_off (Sim.env 1) "dual_series" w0 w' H).
Defined.

(** C1 as written fails: with a one-minute interval and a dark exposure
    that takes 100 s, the first cycle switches the light on and then calls
    [time.sleep(-42)]; the [ValueError] ends the script with pin 2 HIGH. *)
Lemma main_exception_leaves_light_on :
  let w0 := Sim.boot (Sim.camera (Sim.dual_conf "1" "0.05") [true; true]) in
  let r := main (Sim.env 100) "dual_series" w0 in
  r.1 = Raise ValueError ∧ relay r.2 = true ∧
  last (trace r.2) = Some (EGpioOut true).
Proof. vm_compute. auto. Qed.

(** ** Uniform series: the sleep at the end of a cycle *)

Section Series.

Context {D : Type} (env : Env D).
Variables (interval wait_time : Q).
Variables (exposure_time aperture iso subject_name lights : string).

Let cycle := seriesCycle env interval wait_time exposure_time aperture iso
               subject_name lights.

Let capture (w : World D) :=
  singleCapture env wait_time exposure_time aperture iso subject_name
    (Some (strftime env (clock env (ticks w)))) lights (tick (tick w)).

(** The cycle is the capture followed by one sleep of
    [interval - (return_time - call_time)], whatever its sign. *)
Lemma seriesCycle_capture w b w1 :
  capture w = (Ok b, w1) →
  cycle w =
  time_sleep (interval - (clock env (ticks w1) - clock env (S (ticks w))))
    (tick w1).
Proof.
  intros H. unfold cycle, seriesCycle.
  rewrite (bind_Ok _ _ w (clock env (ticks w)) (tick w)) by reflexivity.
  rewrite (bind_Ok _ _ (tick w) (clock env (S (ticks w))) (tick (tick w)))
    by reflexivity.
  unfold capture, now_stamp in H.
  rewrite (bind_Ok _ _ _ _ _ H).
  rewrite (bind_Ok _ _ w1 (clock env (ticks w1)) (tick w1)) by reflexivity.
  reflexivity.
Qed.

(** C2, as the script has it: when the capture of a cycle returns, the
    cycle sleeps [interval - overhead] if that is not negative; there is
    no clamp, so when the overhead exceeds the interval the negative value
    reaches [time.sleep], which raises [ValueError] and ends the loop. *)
Theorem seriesCapture_sleep w b w1 :
  capture w = (Ok b, w1) →
  let overhead := (clock env (ticks w1) - clock env (S (ticks w)))%Q in
  ((overhead <= interval)%Q →
     cycle w = (Ok tt, emit (ESleep (interval - overhead)) (tick w1))) ∧
  ((interval < overhead)%Q →
     cycle w = (Raise ValueError, tick w1) ∧
     ∀ duration cycles, (0 < cycles)%Z →
       seriesCapture env interval duration cycles wait_time exposure_time
         aperture iso subject_name lights w = (Raise ValueError, tick w1)).
Proof.
  intros H overhead. pose proof (seriesCycle_capture w b w1 H) as Hc.
  fold overhead in Hc. unfold time_sleep in Hc. split; intros Ho.
  - assert (Hle : Qle_bool 0 (interval - overhead) = true).
    { apply Qle_bool_iff. lra. }
    rewrite Hle in Hc. exact Hc.
  - assert (Hle : Qle_bool 0 (interval - overhead) = false).
    { destruct (Qle_bool 0 (interval - overhead)) eqn:E; [| reflexivity].
      apply Qle_bool_iff in E. lra. }
    rewrite Hle in Hc. split; [exact Hc |].
    intros duration cycles Hpos. unfold seriesCapture.
    destruct (Z.to_nat cycles) as [| k] eqn:Ek; [lia |].
    cbn [for_range]. fold cycle. apply bind_Raise. exact Hc.
Qed.

End Series.

(** With an interval of 60 s: a capture that takes 5 s is followed by a
    sleep of 55 s, one that takes 65 s by a [ValueError]. *)
Lemma seriesCapture_sleep_witness :
  let w0 := Sim.boot (Sim.camera [] [true]) in
  seriesCycle (Sim.env 5) 60 10 "2" "7.1" "100" "leaf" "off" w0 =
    (Ok tt,
     emit (ESleep 55)
       (tick (singleCapture (Sim.env 5) 10 "2" "7.1" "100" "leaf"
                (Some "1970-01-01_00:00:00") "off" (tick (tick w0))).2)) ∧
  (seriesCapture (Sim.env 65) 60 180 3 10 "2" "7.1" "100" "leaf" "off" w0).1 =
    Raise ValueError.
Proof.
  intros w0. split.
  - pose (w1 := (singleCapture (Sim.env 5) 10 "2" "7.1" "100" "leaf"
                   (Some "1970-01-01_00:00:00") "off" (tick (tick w0))).2).
    assert (H : singleCapture (Sim.env 5) 10 "2" "7.1" "100" "leaf"
                  (Some (strftime (Sim.env 5) (clock (Sim.env 5) (ticks w0))))
                  "off" (tick (tick w0)) = (Ok true, w1))
      by (vm_compute; reflexivity).
    destruct (seriesCapture_sleep (Sim.env 5) 60 10 "2" "7.1" "100" "leaf"
                "off" w0 true w1 H) as [Hle _].
    rewrite Hle by (vm_compute; discriminate).
    fold w1. vm_compute. reflexivity.
  - pose (w1 := (singleCapture (Sim.env 65) 10 "2" "7.1" "100" "leaf"
                   (Some "1970-01-01_00:00:00") "off" (tick (tick w0))).2).
    assert (H : singleCapture (Sim.env 65) 10 "2" "7.1" "100" "leaf"
                  (Some (strftime (Sim.env 65) (clock (Sim.env 65) (ticks w0))))
                  "off" (tick (tick w0)) = (Ok true, w1))
      by (vm_compute; reflexivity).
    destruct (seriesCapture_sleep (Sim.env 65) 60 10 "2" "7.1" "100" "leaf"
                "off" w0 true w1 H) as [_ Hlt].
    destruct Hlt as [_ Hloop]; [vm_compute; reflexivity |].
    rewrite (Hloop 180%Q 3%Z) by lia. reflexivity.
Defined.

(** C2 as written fails: with an interval of 60 s and a capture that takes
    65 s the first cycle does not sleep for zero seconds, it raises. *)
Lemma seriesCapture_overrun_raises :
  let w0 := Sim.boot (Sim.camera [] [true; true; true]) in
  let r := seriesCapture (Sim.env 65) 60 180 3 10 "2" "7.1" "100" "leaf"
             "off" w0 in
  r.1 = Raise ValueError ∧ ∀ d, ESleep d ∉ trace r.2.
Proof.
  vm_compute. split; [reflexivity |].
  intros d Hd. repeat (apply elem_of_cons in Hd as [Hd | Hd]; [discriminate |]).
  by apply elem_of_nil in Hd.
Qed.

(** ** The order of [sorted] *)

Section Order.

Ltac by_codes :=
  repeat match goal with
         | |- context [N.ltb ?a ?b] => destruct (N.ltb_spec a b)
         | H : context [N.ltb ?a ?b] |- _ => destruct (N.ltb_spec a b)
         | |- context [N.eqb ?a ?b] => destruct (N.eqb_spec a b)
         | H : context [N.eqb ?a ?b] |- _ => destruct (N.eqb_spec a b)
         end;
  try discriminate; try reflexivity; try lia.

Lemma N_of_ascii_inj x y : N_of_ascii x = N_of_ascii y → x = y.
Proof.
  intros H. rewrite <- (ascii_N_embedding x), <- (ascii_N_embedding y).
  by rewrite H.
Qed.

#[global] Instance le_total : Total Py.le.
Proof.
  unfold Total, Py.le. intros a. induction a as [| x a IH]; intros [| y b];
    cbn; auto.
  specialize (IH b). by_codes; auto.
Qed.

#[global] Instance le_trans : Transitive Py.le.
Proof.
  unfold Transitive, Py.le. intros a.
  induction a as [| x a IH]; intros [| y b] [| z c]; cbn; auto;
    try discriminate.
  intros H1 H2. specialize (IH b c). by_codes; auto.
Qed.

#[global] Instance le_antisym : AntiSymm (=) Py.le.
Proof.
  unfold AntiSymm, Py.le. intros a.
  induction a as [| x a IH]; intros [| y b]; cbn; auto; try discriminate.
  intros H1 H2. specialize (IH b). by_codes.
  f_equal; [by apply N_of_ascii_inj | auto].
Qed.

Lemma sorted_Sorted l : Sorted Py.le (Py.sorted l).
Proof. apply (Sorted_merge_sort Py.le). Qed.

Lemma sorted_Permutation l : Py.sorted l ≡ₚ l.
Proof. apply (merge_sort_Permutation Py.le). Qed.

(** A sorted list is what [sorted] returns on each of its permutations. *)
Lemma sorted_eq_iff l k :
  Sorted Py.le k → (Py.sorted l = k ↔ l ≡ₚ k).
Proof.
  intros Hk. split.
  - intros <-. symmetry. apply sorted_Permutation.
  - intros Hp. apply (Sorted_unique Py.le); auto using sorted_Sorted.
    by rewrite sorted_Permutation.
Qed.

End Order.

(** ** Configuration keys *)

Lemma sorted_keys_iff (conf : gmap string string) (required : list string) :
  Sorted Py.le required → NoDup required →
  sorted_keys conf = required ↔ dom conf = list_to_set required.
Proof.
  intros Hs Hn. unfold sorted_keys. rewrite sorted_eq_iff by done. split.
  - intros Hp. apply set_eq. intros x.
    rewrite dom_alt, !elem_of_list_to_set. by rewrite Hp.
  - intros Hd. apply NoDup_Permutation; [apply NoDup_fst_map_to_list | done |].
    intros x. rewrite <- (elem_of_list_to_set (C:=gset string) x required), <- Hd.
    by rewrite dom_alt, elem_of_list_to_set.
Qed.

Lemma sorted_keys_length (conf : gmap string string) :
  length (sorted_keys conf) = size conf.
Proof.
  unfold sorted_keys.
  by rewrite sorted_Permutation, length_fmap, length_map_to_list.
Qed.

Lemma check_keys_nil (conf : gmap string string) n required :
  length required = n →
  check_keys n required conf = [] ↔ sorted_keys conf = required.
Proof.
  intros Hn. unfold check_keys. split.
  - intros H. apply app_eq_nil in H as [_ H].
    destruct (bool_decide_reflect (sorted_keys conf = required)) as [E | E];
      [done | discriminate H].
  - intros E. rewrite bool_decide_eq_true_2 by done. cbn.
    rewrite <- sorted_keys_length, E, Hn, Nat.eqb_refl. reflexivity.
Qed.

Lemma single_keys_Sorted : Sorted Py.le single_keys ∧ NoDup single_keys.
Proof.
  split; [repeat constructor | by apply (bool_decide_unpack _)].
Qed.

Lemma dual_series_keys_Sorted :
  Sorted Py.le dual_series_keys ∧ NoDup dual_series_keys.
Proof.
  split; [repeat constructor | by apply (bool_decide_unpack _)].
Qed.

(** The list of the [series] branch is not in order ([lights] comes after
    [subject]), so it is never what [sorted] returns: this branch prints
    its second warning for every file. *)
Remark series_always_warns (conf : gmap string string) :
  msg_missing ∈ conf_warnings "series" conf.
Proof.
  cbn -[check_keys]. unfold check_keys. apply elem_of_app. right.
  rewrite bool_decide_eq_false_2; [by left |].
  intros E. pose proof (sorted_Sorted (map_to_list conf).*1) as Hs.
  unfold sorted_keys in E. rewrite E in Hs. unfold series_keys in Hs.
  do 5 (apply Sorted_inv in Hs as [Hs _]).
  apply Sorted_inv in Hs as [_ Hh]. inversion Hh as [| ? ? Hle]; subst.
  discriminate Hle.
Qed.

Lemma for_each_print {D} (msgs : list string) (w : World D) :
  ∃ w', for_each msgs print w = (Ok tt, w') ∧
        trace w' = (trace w ++ map EPrint msgs)%list ∧
        dev w' = dev w ∧ relay w' = relay w ∧ ticks w' = ticks w.
Proof.
  revert w. induction msgs as [| msg msgs IH]; intros w; cbn [for_each map].
  - exists w. by rewrite app_nil_r.
  - destruct (IH (emit (EPrint msg) w)) as (w' & Hrun & Ht & Hd & Hr & Hk).
    exists w'. rewrite (bind_Ok _ _ w tt (emit (EPrint msg) w)) by reflexivity.
    split; [exact Hrun |]. rewrite Ht. cbn. by rewrite <- app_assoc.
Qed.

(** C3, as the script has it: [readConfFile] never rejects a record.
    Whenever the file can be read and parsed it returns the mapping, and
    the only effect of the key checks is what they print.  For the
    profiles [single] and [dual_series] nothing is printed exactly when the
    key set equals the required set. *)
Theorem readConfFile_warns_only {D} (env : Env D)
    filename capture_profile (w : World D) text conf :
  read_file env filename (dev w) = Some text →
  parse_conf text = Ok conf →
  (∃ w', readConfFile env filename capture_profile w = (Ok conf, w') ∧
         trace w' =
           (trace w ++ map EPrint (conf_warnings capture_profile conf))%list ∧
         dev w' = dev w ∧ relay w' = relay w) ∧
  (capture_profile = "single" →
     conf_warnings capture_profile conf = [] ↔
     dom conf = list_to_set single_keys) ∧
  (capture_profile = "dual_series" →
     conf_warnings capture_profile conf = [] ↔
     dom conf = list_to_set dual_series_keys).
Proof.
  intros Hread Hparse. split; [| split].
  - destruct (for_each_print (conf_warnings capture_profile conf) w)
      as (w' & Hrun & Ht & Hd & Hr & _).
    exists w'. split; [| done]. unfold readConfFile.
    rewrite (bind_Ok _ _ w text w) by (unfold open_read; by rewrite Hread).
    rewrite (bind_Ok _ _ w conf w) by (unfold lift; by rewrite Hparse).
    by rewrite (bind_Ok _ _ w tt w' Hrun).
  - intros ->. cbn -[check_keys]. rewrite check_keys_nil by reflexivity.
    apply sorted_keys_iff; apply single_keys_Sorted.
  - intros ->. cbn -[check_keys]. rewrite check_keys_nil by reflexivity.
    apply sorted_keys_iff; apply dual_series_keys_Sorted.
Qed.

(** A complete [dual_series] file and a complete [single] file are read
    without a word. *)
Lemma readConfFile_warns_only_witness :
  let dual := Sim.boot (Sim.camera (Sim.dual_conf "1" "0.05") []) in
  let single :=
    Sim.boot (Sim.camera ["subject = leaf"; "shutterspeed = 2";
                          "aperture = 7.1"; "iso = 100"; "lights = on"] []) in
  (∃ conf w', readConfFile (Sim.env 1) "dual_series.conf" "dual_series" dual
                = (Ok conf, w') ∧
              trace w' = [] ∧ dom conf = list_to_set dual_series_keys) ∧
  (∃ conf w', readConfFile (Sim.env 1) "single.conf" "single" single
                = (Ok conf, w') ∧
              trace w' = [] ∧ dom conf = list_to_set single_keys).
Proof.
  intros dual single. split.
  - pose (conf := match parse_conf (Sim.conf_text (dev dual)) with
                  | Ok conf => conf
                  | Raise _ => ∅
                  end).
    assert (Hp : parse_conf (Sim.conf_text (dev dual)) = Ok conf)
      by (vm_cast_no_check (@eq_refl _ (Ok conf))).
    assert (Hquiet : conf_warnings "dual_series" conf = [])
      by (vm_cast_no_check (@eq_refl (list string) [])).
    destruct (readConfFile_warns_only (Sim.env 1) "dual_series.conf"
                "dual_series" dual _ conf eq_refl Hp)
      as ((w' & Hrun & Ht & _) & _ & Hiff).
    exists conf, w'. split; [exact Hrun |]. split.
    + rewrite Ht, Hquiet. reflexivity.
    + by apply (Hiff eq_refl).
  - pose (conf := match parse_conf (Sim.conf_text (dev single)) with
                  | Ok conf => conf
                  | Raise _ => ∅
                  end).
    assert (Hp : parse_conf (Sim.conf_text (dev single)) = Ok conf)
      by (vm_cast_no_check (@eq_refl _ (Ok conf))).
    assert (Hquiet : conf_warnings "single" conf = [])
      by (vm_cast_no_check (@eq_refl (list string) [])).
    destruct (readConfFile_warns_only (Sim.env 1) "single.conf"
                "single" single _ conf eq_refl Hp)
      as ((w' & Hrun & Ht & _) & Hiff & _).
    exists conf, w'. split; [exact Hrun |]. split.
    + rewrite Ht, Hquiet. reflexivity.
    + by apply (Hiff eq_refl).
Defined.

(** C3 as written fails: a [single] file that gives only [subject] is a
    strict subset of the required keys, and [readConfFile] returns its
    mapping all the same, after two printed warnings. *)
Lemma readConfFile_returns_subset :
  let w0 := Sim.boot (Sim.camera ["subject = leaf"] []) in
  let r := readConfFile (Sim.env 1) "single.conf" "single" w0 in
  (∃ conf, r.1 = Ok conf ∧ conf !! "subject" = Some "leaf" ∧
           conf !! "aperture" = None) ∧
  trace r.2 = [EPrint msg_count; EPrint msg_missing].
Proof.
  intros w0 r. split.
  - exists {["subject" := "leaf"]}. split; [| done].
    vm_compute. reflexivity.
  - vm_compute. reflexivity.
Qed.

(** ** Comment lines *)

Lemma strip_hash c : Py.strip (String "#" c) ≠ "".
Proof.
  unfold Py.strip. change (Py.lstrip (String "#" c)) with (String "#" c).
  cbn [Py.rstrip]. destruct (Py.rstrip c); [| discriminate].
  change (Py.is_space "#") with false. discriminate.
Qed.

(** A stripped line that begins with [#] is cut down to the empty string,
    which does not split into a key and a value. *)
Lemma conf_line_comment conf c :
  conf_line conf (String "#" c) = Raise ValueError.
Proof.
  unfold conf_line.
  destruct (String.eqb_spec (Py.strip (String "#" c)) "") as [E | _].
  - by apply strip_hash in E.
  - reflexivity.
Qed.

(** C9 at a file whose first line is a comment: the docstring says that
    what follows [#] is ignored, but the line is emptied after the test
    for blank lines and the unpacking of [key, value] raises. *)
Theorem readConfFile_comment_line_raises :
  (∀ conf c, conf_line conf (String "#" c) = Raise ValueError) ∧
  let w0 := Sim.boot (Sim.camera ["# capture options"; "subject = leaf";
                                  "shutterspeed = 2"; "aperture = 7.1";
                                  "iso = 100"; "lights = on"] []) in
  readConfFile (Sim.env 1) "single.conf" "single" w0 = (Raise ValueError, w0).
Proof.
  split; [exact conf_line_comment |]. vm_compute. reflexivity.
Qed.

(** ** Bulb mode *)

Lemma existsb_elem_of {A} (f : A → bool) (l : list A) :
  existsb f l = true ↔ ∃ x, x ∈ l ∧ f x = true.
Proof.
  rewrite existsb_exists. split; intros (x & Hx & Hf); exists x;
    (split; [by apply list_elem_of_In | done]).
Qed.

Lemma bulb_row_iff row :
  bulb_row row = true ↔
  Py.contains "Current:" row = true ∧ Py.contains "bulb" row = true.
Proof.
  unfold bulb_row. rewrite !andb_true_iff, negb_true_iff. split.
  - tauto.
  - intros [Hc Hb]. split; [split |]; try done.
    destruct row; [discriminate Hc | reflexivity].
Qed.

(** C8, as the script has it: the test is a substring test on the rows of
    the driver's answer.  [verifyBulbMode] returns true exactly when some
    row holds both [Current:] and [bulb]. *)
Theorem verifyBulbMode_substring {D} (env : Env D) (w : World D) :
  let answer := exec env (Shell "gphoto2 --get-config shutterspeed") (dev w) in
  verifyBulbMode env w =
    (Ok (bulb_verified answer.1),
     emit (ERun (Shell "gphoto2 --get-config shutterspeed"))
       (set_dev answer.2 w)) ∧
  (bulb_verified answer.1 = true ↔
   ∃ row, row ∈ rows_of answer.1 ∧
          Py.contains "Current:" row = true ∧ Py.contains "bulb" row = true).
Proof.
  intros answer. split.
  - unfold verifyBulbMode, subprocess_run. rewrite bind_unfold.
    fold answer. destruct answer as [out d]. reflexivity.
  - unfold bulb_verified. rewrite existsb_elem_of.
    split; intros (row & Hin & Hrow); exists row; split; try done;
      by apply bulb_row_iff.
Qed.

(** C8 as written fails: a driver that reports the current value [bulb2]
    reports something other than [bulb], and is still taken to be in bulb
    mode. *)
Lemma verifyBulbMode_accepts_bulb2 :
  let answer := Sim.report "Shutter Speed" "bulb2" in
  map current_of (filter (λ row, Py.contains "Current:" row = true)
                    (rows_of answer)) = ["bulb2"] ∧
  bulb_verified answer = true.
Proof. vm_compute. auto. Qed.

(** ** Parameter programming *)

Section Parameters.

Context {D : Type} (env : Env D).

Lemma in_values_iff value (dictionary : gmap string string) :
  in_values value dictionary = true ↔ ∃ index, dictionary !! index = Some value.
Proof.
  unfold in_values. rewrite existsb_elem_of. split.
  - intros (v & Hin & Heq). apply String.eqb_eq in Heq as <-.
    change (value ∈ (map_to_list dictionary).*2) in Hin.
    apply list_elem_of_fmap in Hin as ([index v] & -> & Hin).
    exists index. by apply elem_of_map_to_list.
  - intros (index & Hl). exists value. split; [| apply String.eqb_refl].
    change (value ∈ (map_to_list dictionary).*2).
    apply list_elem_of_fmap. exists (index, value).
    split; [done | by apply elem_of_map_to_list].
Qed.

(** Loading the tables only reads files. *)
Lemma load_world a i (w w1 : World D) r :
  loadconfigurableParameterDicts env a i w = (r, w1) → w1 = w.
Proof.
  cbv [loadconfigurableParameterDicts load_dict open_read lift
       mbind M_bind mret M_ret].
  destruct (read_file env a (dev w)); [| by intros [= _ <-]].
  destruct (dict_lines _ _); [| by intros [= _ <-]].
  destruct (read_file env i (dev w)); [| by intros [= _ <-]].
  destruct (dict_lines _ _); by intros [= _ <-].
Qed.

Lemma load_same_files a i (w w' : World D) r :
  read_file env a (dev w') = read_file env a (dev w) →
  read_file env i (dev w') = read_file env i (dev w) →
  loadconfigurableParameterDicts env a i w = (r, w) →
  loadconfigurableParameterDicts env a i w' = (r, w').
Proof.
  cbv [loadconfigurableParameterDicts load_dict open_read lift
       mbind M_bind mret M_ret].
  intros Ha Hi. rewrite Ha.
  destruct (read_file env a (dev w)); [| by intros [= <-]].
  destruct (dict_lines _ _); [| by intros [= <-]].
  rewrite Hi.
  destruct (read_file env i (dev w)); [| by intros [= <-]].
  destruct (dict_lines _ _); by intros [= <-].
Qed.

(** The table consulted for a supported [setting]. *)
Lemma setParameterByValue_loaded setting value (w : World D)
    aperture_dict iso_dict :
  setting ∈ ["aperture"; "iso"] →
  loadconfigurableParameterDicts env aperture_dict_filename
    iso_dict_filename w = (Ok (aperture_dict, iso_dict), w) →
  setParameterByValue env setting value w =
  if in_values value
       (if String.eqb setting "aperture" then aperture_dict else iso_dict)
  then program_setting env setting value w
  else (Ok false, w).
Proof.
  intros Hs Hload. unfold setParameterByValue.
  rewrite (bool_decide_eq_true_2 _ Hs). cbn [negb].
  rewrite (bind_Ok _ _ _ _ _ Hload).
  assert (Hcase : setting = "aperture" ∨ setting = "iso").
  { apply elem_of_cons in Hs as [-> | Hs]; [by left |].
    apply elem_of_cons in Hs as [-> | Hs]; [by right |].
    by apply elem_of_nil in Hs. }
  destruct Hcase as [-> | ->]; cbn [String.eqb Ascii.eqb Bool.eqb];
    rewrite bind_unfold, ret_unfold;
    by destruct (in_values value _).
Qed.

(** C6: a value that is in no row of the table loaded for the requested
    parameter is rejected, and the world is left as it was: no command is
    run, neither a write nor a read. *)
Theorem setParameterByValue_rejects_unlisted setting value (w : World D)
    aperture_dict iso_dict :
  loadconfigurableParameterDicts env aperture_dict_filename
    iso_dict_filename w = (Ok (aperture_dict, iso_dict), w) →
  (setting = "aperture" → ∀ index, aperture_dict !! index ≠ Some value) →
  (setting = "iso" → ∀ index, iso_dict !! index ≠ Some value) →
  setParameterByValue env setting value w = (Ok false, w).
Proof.
  intros Hload Ha Hi.
  destruct (decide (setting ∈ ["aperture"; "iso"])) as [Hs | Hs].
  - rewrite (setParameterByValue_loaded _ _ _ _ _ Hs Hload).
    destruct (in_values value _) eqn:Hin; [| reflexivity].
    apply in_values_iff in Hin as (index & Hin). exfalso.
    apply elem_of_cons in Hs as [-> | Hs]; [by eapply Ha |].
    apply elem_of_cons in Hs as [-> | Hs]; [by eapply Hi |].
    by apply elem_of_nil in Hs.
  - unfold setParameterByValue. by rewrite (bool_decide_eq_false_2 _ Hs).
Qed.

End Parameters.

(** The value [9.9] is in no row of the aperture table. *)
Lemma setParameterByValue_rejects_unlisted_witness :
  let w0 := Sim.boot (Sim.camera [] []) in
  setParameterByValue (Sim.env 1) "aperture" "9.9" w0 = (Ok false, w0).
Proof.
  intros w0.
  assert (Hload : ∃ aperture_dict iso_dict,
             loadconfigurableParameterDicts (Sim.env 1) aperture_dict_filename
               iso_dict_filename w0 = (Ok (aperture_dict, iso_dict), w0) ∧
             in_values "9.9" aperture_dict = false).
  { vm_compute. do 2 eexists. split; reflexivity. }
  destruct Hload as (aperture_dict & iso_dict & Hload & Hout).
  apply (setParameterByValue_rejects_unlisted (Sim.env 1) "aperture" "9.9"
           w0 aperture_dict iso_dict Hload).
  - intros _ index Hl.
    assert (Hin : in_values "9.9" aperture_dict = true)
      by (apply in_values_iff; eauto).
    congruence.
  - intros [=].
Defined.

Section Idempotence.

Context {D : Type} (env : Env D).
Variables (setting value : string).

Let get := get_setting_cmd setting.

Lemma verify_set_already output :
  verify_set output value = true → already_set output value = true.
Proof.
  unfold verify_set, already_set. intros H.
  destruct (find _ _) as [row |] eqn:Hf; [| discriminate H].
  apply find_some in Hf as [Hin Hc].
  apply existsb_exists. exists row. split; [exact Hin |].
  unfold reports. by rewrite Hc, H.
Qed.

Lemma set_dev_same (w : World D) : set_dev (dev w) w = w.
Proof. by destruct w. Qed.

(** A call that returned [True] went through the argument checks and then
    either found the value in place or wrote it and read it back. *)
Lemma setParameterByValue_true_inv (w w1 : World D) :
  setParameterByValue env setting value w = (Ok true, w1) →
  setting ∈ ["aperture"; "iso"] ∧
  ∃ aperture_dict iso_dict,
    loadconfigurableParameterDicts env aperture_dict_filename
      iso_dict_filename w = (Ok (aperture_dict, iso_dict), w) ∧
    in_values value
      (if String.eqb setting "aperture" then aperture_dict else iso_dict)
      = true ∧
    program_setting env setting value w = (Ok true, w1).
Proof.
  intros H.
  destruct (decide (setting ∈ ["aperture"; "iso"])) as [Hs | Hs].
  - split; [exact Hs |].
    destruct (loadconfigurableParameterDicts env aperture_dict_filename
                iso_dict_filename w) as [[[ad id] | e] w'] eqn:Hload.
    + pose proof (load_world _ _ _ _ _ _ Hload) as ->.
      exists ad, id. split; [reflexivity |].
      rewrite (setParameterByValue_loaded env _ _ _ _ _ Hs Hload) in H.
      destruct (in_values value _); [by split | discriminate H].
    + unfold setParameterByValue in H.
      rewrite (bool_decide_eq_true_2 _ Hs) in H. cbn [negb] in H.
      rewrite (bind_Raise _ _ _ _ _ Hload) in H. discriminate H.
  - unfold setParameterByValue in H.
    rewrite (bool_decide_eq_false_2 _ Hs) in H. discriminate H.
Qed.

(** After such a call the camera, asked again, reports the value. *)
Lemma program_setting_true (w w1 : World D) :
  (∀ d, (exec env get d).2 = d) →
  program_setting env setting value w = (Ok true, w1) →
  already_set (exec env get (dev w1)).1 value = true.
Proof.
  intros Hpure. unfold program_setting, subprocess_run. rewrite bind_unfold.
  fold get. pose proof (Hpure (dev w)) as H0.
  destruct (exec env get (dev w)) as [out0 d0] eqn:E0. cbn in H0. subst d0.
  destruct (already_set out0 value) eqn:A0.
  - intros [= <-]. cbn. by rewrite E0.
  - rewrite bind_unfold. cbn [dev emit set_dev].
    destruct (exec env (set_setting_cmd setting value) (dev w))
      as [out1 d1] eqn:E1.
    destruct (negb _); [discriminate |].
    rewrite bind_unfold. cbn [dev emit set_dev].
    pose proof (Hpure d1) as H2.
    destruct (exec env get d1) as [out2 d2] eqn:E2. cbn in H2. subst d2.
    intros [= Hv <-]. cbn. rewrite E2. cbn. by apply verify_set_already.
Qed.

(** C7: when the camera already reports the requested value, a supported
    setting with a listed value is confirmed after the one read, without a
    write; and, for a camera on which reading a setting changes nothing
    and whose tables are fixed files, a call made right after a call that
    returned [True] runs the read command and nothing else. *)
Theorem setParameterByValue_idempotent :
  (∀ (w : World D) aperture_dict iso_dict,
     setting ∈ ["aperture"; "iso"] →
     loadconfigurableParameterDicts env aperture_dict_filename
       iso_dict_filename w = (Ok (aperture_dict, iso_dict), w) →
     (∃ index,
        (if String.eqb setting "aperture" then aperture_dict else iso_dict)
          !! index = Some value) →
     (∃ row, row ∈ rows_of (exec env get (dev w)).1 ∧
             Py.contains "Current:" row = true ∧ current_of row = value) →
     setParameterByValue env setting value w =
       (Ok true, emit (ERun get) (set_dev (exec env get (dev w)).2 w))) ∧
  ((∀ d, (exec env get d).2 = d) →
   (∀ d d', read_file env aperture_dict_filename d
            = read_file env aperture_dict_filename d') →
   (∀ d d', read_file env iso_dict_filename d
            = read_file env iso_dict_filename d') →
   ∀ w w1 : World D,
     setParameterByValue env setting value w = (Ok true, w1) →
     setParameterByValue env setting value w1 =
       (Ok true, emit (ERun get) w1)).
Proof.
  split.
  - intros w ad id Hs Hload Hin (row & Hrow & Hc & Hv).
    rewrite (setParameterByValue_loaded env _ _ _ _ _ Hs Hload).
    rewrite (proj2 (in_values_iff _ _) Hin).
    unfold program_setting, subprocess_run. rewrite bind_unfold. fold get.
    destruct (exec env get (dev w)) as [out0 d0]. cbn [fst snd] in *.
    assert (A0 : already_set out0 value = true).
    { apply existsb_elem_of. exists row. split; [exact Hrow |].
      unfold reports. rewrite Hc, Hv. apply String.eqb_refl. }
    by rewrite A0.
  - intros Hpure Ha Hi w w1 H.
    apply setParameterByValue_true_inv in H
      as (Hs & ad & id & Hload & Hin & Hprog).
    assert (Hload1 : loadconfigurableParameterDicts env aperture_dict_filename
                       iso_dict_filename w1 = (Ok (ad, id), w1))
      by (apply (load_same_files env _ _ w w1); auto).
    rewrite (setParameterByValue_loaded env _ _ _ _ _ Hs Hload1), Hin.
    pose proof (program_setting_true w w1 Hpure Hprog) as A1.
    unfold program_setting, subprocess_run. rewrite bind_unfold. fold get.
    pose proof (Hpure (dev w1)) as H1.
    destruct (exec env get (dev w1)) as [out d]. cbn [fst snd] in *. subst d.
    by rewrite A1, set_dev_same.
Qed.

End Idempotence.

(** A camera at f/5.6 asked for f/2.8: the first call reads, writes and
    reads back; the second call only reads. *)
Lemma setParameterByValue_idempotent_witness :
  let w0 := Sim.boot (Sim.camera [] []) in
  let get := get_setting_cmd "aperture" in
  let w1 := (setParameterByValue (Sim.env 1) "aperture" "2.8" w0).2 in
  trace w1 = [ERun get; ERun (set_setting_cmd "aperture" "2.8"); ERun get] ∧
  setParameterByValue (Sim.env 1) "aperture" "2.8" w1
    = (Ok true, emit (ERun get) w1) ∧
  setParameterByValue (Sim.env 1) "aperture" "2.8" w1
    = (Ok true,
       emit (ERun get) (set_dev (exec (Sim.env 1) get (dev w1)).2 w1)).
Proof.
  intros w0 get w1.
  destruct (setParameterByValue_idempotent (Sim.env 1) "aperture" "2.8")
    as [Hset Htwice].
  split; [vm_compute; reflexivity |]. split.
  - apply (Htwice (λ d, eq_refl) (λ d d', eq_refl) (λ d d', eq_refl) w0 w1).
    vm_compute. reflexivity.
  - assert (Hload : ∃ aperture_dict iso_dict,
               loadconfigurableParameterDicts (Sim.env 1)
                 aperture_dict_filename iso_dict_filename w1
                 = (Ok (aperture_dict, iso_dict), w1) ∧
               in_values "2.8" aperture_dict = true).
    { vm_compute. do 2 eexists. split; reflexivity. }
    destruct Hload as (aperture_dict & iso_dict & Hload & Hin).
    apply (Hset w1 aperture_dict iso_dict).
    + by left.
    + exact Hload.
    + by apply in_values_iff.
    + exists "Current: 2.8". split; [| by vm_compute].
      vm_compute. do 3 right. left.
Defined.

(** ** Naming the image *)

Section Naming.

Context {D : Type} (env : Env D).

Lemma float_Ok s q (w w' : World D) :
  float env s w = (Ok q, w') → to_float env s = Some q ∧ w' = w.
Proof.
  unfold float. destruct (to_float env s); [| discriminate].
  by intros [= -> ->].
Qed.

Lemma tag_of_dark q : tag_of q = "_dark" ↔ (5 <= q)%Q.
Proof.
  unfold tag_of. destruct (Qle_bool 5 q) eqn:E.
  - by apply Qle_bool_iff in E.
  - split; [discriminate |]. intros H. apply Qle_bool_iff in H. congruence.
Qed.

Lemma tag_of_light q : tag_of q = "_light" ↔ (q < 5)%Q.
Proof.
  unfold tag_of. destruct (Qle_bool 5 q) eqn:E.
  - apply Qle_bool_iff in E. split; [discriminate | intros H; lra].
  - split; [| done]. intros _. apply Qnot_le_lt. intros H.
    apply Qle_bool_iff in H. congruence.
Qed.

(** The conversion to milliseconds rounds as the interpreter does: the
    doubles read from [2.3], [1.001] and [0.29] give 2300, 1000 and 290 ms
    (the exact products would give 2299, 1000 and 289), and ten seconds
    give 10000 ms. *)
Remark to_ms_rounds :
  (q ← Sim.to_float "2.3"; Some (to_ms q)) = Some (Ok 2300%Z) ∧
  (q ← Sim.to_float "1.001"; Some (to_ms q)) = Some (Ok 1000%Z) ∧
  (q ← Sim.to_float "0.29"; Some (to_ms q)) = Some (Ok 290%Z) ∧
  to_ms 10 = Ok 10000%Z.
Proof. vm_compute. auto. Qed.

(** A capture that reports success has asked the camera for the image
    under the name built from its arguments, and has found it.  Without a
    [timestamp] the stamp is that of the clock reading the capture takes;
    the switching of the light reads no clock. *)
Lemma singleCapture_true wait_time exposure_time aperture iso subject_name
    timestamp lights (w w' : World D) :
  singleCapture env wait_time exposure_time aperture iso subject_name
    timestamp lights w = (Ok true, w') →
  ∃ q exposure_ms wait_ms,
    to_float env exposure_time = Some q ∧
    let name :=
      image_name_of subject_name
        (default (strftime env (clock env (ticks w))) timestamp) (tag_of q)
        exposure_time aperture iso in
    last (trace w') = Some (ERun (capture_cmd name exposure_ms wait_ms)) ∧
    name +:+ ".jpg" ∈ listdir env (dev w').
Proof.
  intros H. unfold singleCapture in H.
  apply bind_Ok_inv in H as (? & w1 & Hl & H).
  assert (Hticks : ticks w1 = ticks w).
  { destruct (String.eqb lights "on").
    - apply bind_Ok_inv in Hl as (? & wx & Hg & Hs).
      unfold GPIO_output in Hg. injection Hg as _ <-.
      unfold time_sleep in Hs. cbn in Hs. by injection Hs as _ <-.
    - rewrite ret_unfold in Hl. by injection Hl as _ <-. }
  apply bind_Ok_inv in H as (ts & w2 & Hts & H).
  assert (Hstamp : ts = default (strftime env (clock env (ticks w))) timestamp).
  { destruct timestamp as [t |]; cbn [default].
    - rewrite ret_unfold in Hts. by injection Hts as <- _.
    - apply bind_Ok_inv in Hts as (t & wt & Ht & Hr).
      unfold time_time in Ht. injection Ht as <- _.
      rewrite ret_unfold in Hr. injection Hr as <- _.
      unfold now_stamp. by rewrite Hticks. }
  subst ts. clear Hts Hl Hticks.
  apply bind_Ok_inv in H as (q & w3 & Hq & H).
  apply float_Ok in Hq as [Hq ->].
  apply bind_Ok_inv in H as ([] & w4 & _ & H); cbn [negb] in H;
    [| discriminate H].
  apply bind_Ok_inv in H as ([] & w5 & _ & H); cbn [negb] in H;
    [| discriminate H].
  apply bind_Ok_inv in H as (wait_secs & w6 & _ & H).
  apply bind_Ok_inv in H as (wait_ms & w7 & _ & H).
  apply bind_Ok_inv in H as (q' & w8 & Hq' & H).
  apply float_Ok in Hq' as [Hq' ->].
  assert (q' = q) as -> by congruence.
  apply bind_Ok_inv in H as (exposure_ms & w9 & Hms & H).
  unfold lift in Hms. injection Hms as _ <-.
  apply bind_Ok_inv in H as (out & w10 & Hrun & H).
  apply bind_Ok_inv in H as (files & w11 & Hls & H).
  unfold os_listdir in Hls. injection Hls as <- <-.
  rewrite ret_unfold in H. injection H as Hfound <-.
  unfold subprocess_run in Hrun. destruct (exec env _ _) as [out' d].
  injection Hrun as _ <-.
  exists q, exposure_ms, wait_ms. split; [exact Hq |]. cbn.
  split; [by rewrite last_snoc |].
  by apply bool_decide_eq_true_1 in Hfound.
Qed.

(** C5: the name is built from the arguments alone, each of them entering
    it: subject, stamp, tag, exposure time as it is written in the
    configuration, aperture and ISO, joined as on line 315; the tag is
    [_dark] from five seconds on and [_light] below; and this is the name
    under which a capture that reports success has asked for the image and
    has found it.  The example of the specification is one instance. *)
Theorem singleCapture_image_name :
  image_name_of "S" "2024-01-01_12:00:00" (tag_of 10) "10" "2.8" "400"
    = "S_2024-01-01_12:00:00_dark_exp10s__f2.8_iso400" ∧
  tag_of 2 = "_light" ∧
  (∀ q, (tag_of q = "_dark" ↔ (5 <= q)%Q) ∧ (tag_of q = "_light" ↔ (q < 5)%Q)) ∧
  (∀ subject_name timestamp exposure_time aperture iso q,
     to_float env exposure_time = Some q →
     image_name env subject_name timestamp exposure_time aperture iso =
       Some (subject_name +:+ "_" +:+ timestamp
             +:+ (if Qle_bool 5 q then "_dark" else "_light")
             +:+ "_exp" +:+ exposure_time +:+ "s__f" +:+ aperture
             +:+ "_iso" +:+ iso)) ∧
  (∀ wait_time exposure_time aperture iso subject_name timestamp lights
     (w w' : World D),
     singleCapture env wait_time exposure_time aperture iso subject_name
       timestamp lights w = (Ok true, w') →
     ∃ q, to_float env exposure_time = Some q ∧
          let stamp := default (strftime env (clock env (ticks w))) timestamp in
          let name :=
            subject_name +:+ "_" +:+ stamp
            +:+ (if Qle_bool 5 q then "_dark" else "_light")
            +:+ "_exp" +:+ exposure_time +:+ "s__f" +:+ aperture
            +:+ "_iso" +:+ iso in
          image_name env subject_name stamp exposure_time aperture iso
            = Some name ∧
          name +:+ ".jpg" ∈ listdir env (dev w') ∧
          ∃ exposure_ms wait_ms : Z,
            last (trace w') =
              Some (ERun (Argv ["gphoto2";
                                "--filename"; name +:+ ".jpg";
                                "--set-config-index"; "eosremoterelease=5";
                                "--wait-event=" +:+ pretty exposure_ms +:+ "ms";
                                "--set-config-index"; "eosremoterelease=4";
                                "--wait-event-and-download="
                                  +:+ pretty wait_ms +:+ "ms"]))).
Proof.
  split; [reflexivity |]. split; [reflexivity |]. split; [| split].
  - intros q. split; [apply tag_of_dark | apply tag_of_light].
  - intros subject_name timestamp exposure_time aperture iso q Hq.
    unfold image_name. by rewrite Hq.
  - intros wait_time exposure_time aperture iso subject_name timestamp
      lights w w' H.
    apply singleCapture_true in H
      as (q & exposure_ms & wait_ms & Hq & Hlast & Hin).
    exists q. split; [exact Hq |]. cbv zeta. split.
    + unfold image_name. by rewrite Hq.
    + split; [exact Hin |]. by exists exposure_ms, wait_ms.
Qed.

End Naming.

(** A ten-second exposure of subject [S] on the simulated camera. *)
Lemma singleCapture_image_name_witness :
  let w0 := Sim.boot (Sim.camera [] [true]) in
  let run := singleCapture (Sim.env 1) 10 "10" "2.8" "400" "S"
               (Some "2024-01-01_12:00:00") "off" w0 in
  image_name (Sim.env 1) "S" "2024-01-01_12:00:00" "10" "2.8" "400"
    = Some "S_2024-01-01_12:00:00_dark_exp10s__f2.8_iso400" ∧
  "S_2024-01-01_12:00:00_dark_exp10s__f2.8_iso400.jpg"
    ∈ listdir (Sim.env 1) (dev run.2) ∧
  last (trace run.2) =
    Some (ERun (Argv ["gphoto2"; "--filename";
                      "S_2024-01-01_12:00:00_dark_exp10s__f2.8_iso400.jpg";
                      "--set-config-index"; "eosremoterelease=5";
                      "--wait-event=10000ms";
                      "--set-config-index"; "eosremoterelease=4";
                      "--wait-event-and-download=10000ms"])).
Proof.
  intros w0 run.
  destruct (singleCapture_image_name (Sim.env 1))
    as (_ & _ & _ & Hname & Hcapture).
  assert (Hq : to_float (Sim.env 1) "10" = Some 10%Q)
    by (vm_compute; reflexivity).
  pose proof (Hname "S" "2024-01-01_12:00:00" "10" "2.8" "400" 10%Q Hq) as Hn.
  split; [exact Hn |].
  assert (Hrun : singleCapture (Sim.env 1) 10 "10" "2.8" "400" "S"
                   (Some "2024-01-01_12:00:00") "off" w0 = (Ok true, run.2))
    by (vm_compute; reflexivity).
  destruct (Hcapture _ _ _ _ _ _ _ _ _ Hrun) as (q & Hq' & _ & Hin & _).
  assert (q = 10%Q) as -> by congruence.
  split; [exact Hin | vm_compute; reflexivity].
Defined.

(** ** Alternating dark and light exposures *)

Section Dual.

Context {D : Type} (env : Env D).
Variables (interval wait_time : Q).
Variables (exposure_time_light exposure_time_dark : string).
Variables (aperture_light aperture_dark iso_light iso_dark : string).
Variable (subject_name : string).

Let cycle :=
  dualSeriesCycle env interval wait_time exposure_time_light
    exposure_time_dark aperture_light aperture_dark iso_light iso_dark
    subject_name.

Let loop (duration : Q) (cycles : Z) :=
  dualSeriesCapture env interval duration cycles wait_time
    exposure_time_light exposure_time_dark aperture_light aperture_dark
    iso_light iso_dark subject_name.

(** The stamp of a cycle that starts in [w]: its first clock reading. *)
Let stamp (w : World D) : string := strftime env (clock env (ticks w)).

(** The dark exposure of a cycle that starts in [w]. *)
Let dark (w : World D) :=
  singleCapture env wait_time exposure_time_dark aperture_dark iso_dark
    subject_name (Some (stamp w)) "off"
    (tick (emit (EGpioOut false) (set_relay false w))).

(** The wait between the two exposures, when the dark one ended in [w_c]. *)
Let pause (w w_c : World D) : Q :=
  (interval - (clock env (ticks w_c) - clock env (ticks w)) - 2)%Q.

(** The light exposure of that cycle. *)
Let light (w w_c : World D) :=
  singleCapture env wait_time exposure_time_light aperture_light iso_light
    subject_name (Some (stamp w)) "off"
    (emit (ESleep (pause w w_c))
       (emit (EGpioOut true) (set_relay true (tick w_c)))).

Lemma dualSeriesCycle_run (w w_c w_g : World D) bd bl :
  dark w = (Ok bd, w_c) →
  (0 <= pause w w_c)%Q →
  light w w_c = (Ok bl, w_g) →
  cycle w = (Ok bl, if bl then emit (ESleep 2) w_g else w_g).
Proof.
  intros Hdark Hpause Hlight. unfold cycle, dualSeriesCycle.
  rewrite (bind_Ok _ _ w tt (emit (EGpioOut false) (set_relay false w)))
    by reflexivity.
  rewrite (bind_Ok _ _ _ (clock env (ticks w))
             (tick (emit (EGpioOut false) (set_relay false w))))
    by reflexivity.
  unfold dark, stamp in Hdark. unfold now_stamp.
  rewrite (bind_Ok _ _ _ _ _ Hdark).
  rewrite (bind_Ok _ _ w_c (clock env (ticks w_c)) (tick w_c)) by reflexivity.
  rewrite (bind_Ok _ _ (tick w_c) tt
             (emit (EGpioOut true) (set_relay true (tick w_c))))
    by reflexivity.
  apply Qle_bool_iff in Hpause. unfold pause in Hpause.
  rewrite (bind_Ok _ _ _ tt
             (emit (ESleep (interval
                            - (clock env (ticks w_c) - clock env (ticks w))
                            - 2))
                (emit (EGpioOut true) (set_relay true (tick w_c)))))
    by (unfold time_sleep; by rewrite Hpause).
  unfold light, stamp, pause in Hlight.
  rewrite (bind_Ok _ _ _ _ _ Hlight).
  destruct bl; cbn [negb]; [| reflexivity].
  by rewrite (bind_Ok _ _ w_g tt (emit (ESleep 2) w_g)) by reflexivity.
Qed.

(** C4: in a cycle whose two exposures return, what the loop does next
    depends on the light exposure alone.  If it failed the function
    returns at once, in the world the exposure left, however many cycles
    remain; if it succeeded the loop sleeps two seconds and goes on with
    the remaining cycles, whether the dark exposure succeeded or not. *)
Theorem dualSeriesCapture_aborts_on_light_only
    (w w_c w_g : World D) bd bl duration cycles :
  dark w = (Ok bd, w_c) →
  (0 <= pause w w_c)%Q →
  light w w_c = (Ok bl, w_g) →
  (0 < cycles)%Z →
  loop duration cycles w =
  if bl then loop duration (cycles - 1)%Z (emit (ESleep 2) w_g)
  else (Ok tt, w_g).
Proof.
  intros Hdark Hpause Hlight Hpos.
  pose proof (dualSeriesCycle_run w w_c w_g bd bl Hdark Hpause Hlight) as Hc.
  unfold loop, dualSeriesCapture.
  replace (Z.to_nat cycles) with (S (Z.to_nat (cycles - 1))) by lia.
  cbn [for_range_return]. fold cycle.
  rewrite (bind_Ok _ _ _ _ _ Hc). by destruct bl.
Qed.

End Dual.

(** Three cycles asked for, on a camera whose first dark exposure and
    second light exposure leave no image: the first cycle is followed by
    the second, the second ends the run, and the four outcomes are used
    up by the four exposures taken. *)
Lemma dualSeriesCapture_aborts_on_light_only_witness :
  let w := Sim.boot (Sim.camera [] [false; true; true; false]) in
  let run := dualSeriesCapture (Sim.env 1) 60 180 3 10 "2" "10" "7.1" "2.8"
               "100" "400" "leaf" w in
  run = (Ok tt, run.2) ∧ Sim.outcomes (dev run.2) = [].
Proof.
  intros w run. split; [| vm_compute; reflexivity].
  pose (dark (w : World Sim.state) :=
          singleCapture (Sim.env 1) 10 "10" "2.8" "400" "leaf"
            (Some (strftime (Sim.env 1) (clock (Sim.env 1) (ticks w)))) "off"
            (tick (emit (EGpioOut false) (set_relay false w)))).
  pose (light (w w_c : World Sim.state) :=
          singleCapture (Sim.env 1) 10 "2" "7.1" "100" "leaf"
            (Some (strftime (Sim.env 1) (clock (Sim.env 1) (ticks w)))) "off"
            (emit (ESleep (60 - (clock (Sim.env 1) (ticks w_c)
                                 - clock (Sim.env 1) (ticks w)) - 2))
               (emit (EGpioOut true) (set_relay true (tick w_c))))).
  pose (w_c := (dark w).2). pose (w_g := (light w w_c).2).
  pose (w2 := emit (ESleep 2) w_g).
  pose (w2_c := (dark w2).2). pose (w2_g := (light w2 w2_c).2).
  assert (Hd1 : dark w = (Ok false, w_c)) by (vm_compute; reflexivity).
  assert (Hl1 : light w w_c = (Ok true, w_g)) by (vm_compute; reflexivity).
  assert (Hd2 : dark w2 = (Ok true, w2_c)) by (vm_compute; reflexivity).
  assert (Hl2 : light w2 w2_c = (Ok false, w2_g)) by (vm_compute; reflexivity).
  unfold run at 1.
  rewrite (dualSeriesCapture_aborts_on_light_only (Sim.env 1) 60 10 "2" "10"
             "7.1" "2.8" "100" "400" "leaf" w w_c w_g false true 180 3
             Hd1 ltac:(vm_compute; discriminate) Hl1 eq_refl).
  cbn match. change (3 - 1)%Z with 2%Z. fold w2.
  rewrite (dualSeriesCapture_aborts_on_light_only (Sim.env 1) 60 10 "2" "10"
             "7.1" "2.8" "100" "400" "leaf" w2 w2_c w2_g true false 180 2
             Hd2 ltac:(vm_compute; discriminate) Hl2 eq_refl).
  cbn match. vm_compute. reflexivity.
Defined.

(** ** The names of the two images of a cycle *)

Lemma append_inj_l s x y : s +:+ x = s +:+ y → x = y.
Proof. induction s as [| c s IH]; cbn; [done |]. intros [= H]. auto. Qed.

(** A text is cut in one way only at the first occurrence of a character. *)
Lemma append_sep c l1 l2 r1 r2 :
  Py.has_char c l1 = false → Py.has_char c l2 = false →
  l1 +:+ String c r1 = l2 +:+ String c r2 → l1 = l2 ∧ r1 = r2.
Proof.
  revert l2. induction l1 as [| x l1 IH]; intros [| y l2]; cbn.
  - intros _ _ [= ->]. done.
  - intros _ H [= -> _]. rewrite Ascii.eqb_refl in H. discriminate H.
  - intros H _ [= -> _]. rewrite Ascii.eqb_refl in H. discriminate H.
  - intros H1 H2 [= -> H]. apply orb_false_iff in H1 as [_ H1].
    apply orb_false_iff in H2 as [_ H2].
    destruct (IH l2 H1 H2 H) as [-> ->]. done.
Qed.

Lemma tag_of_cases q : tag_of q = "_dark" ∨ tag_of q = "_light".
Proof. unfold tag_of. destruct (Qle_bool 5 q); auto. Qed.

Lemma image_name_of_inj subject_name timestamp tag1 tag2 e1 e2 a1 a2 i1 i2 :
  (tag1 = "_dark" ∨ tag1 = "_light") → (tag2 = "_dark" ∨ tag2 = "_light") →
  Py.has_char "s" e1 = false → Py.has_char "s" e2 = false →
  Py.has_char "_" a1 = false → Py.has_char "_" a2 = false →
  image_name_of subject_name timestamp tag1 e1 a1 i1
    = image_name_of subject_name timestamp tag2 e2 a2 i2 →
  tag1 = tag2 ∧ e1 = e2 ∧ a1 = a2 ∧ i1 = i2.
Proof.
  intros Ht1 Ht2 He1 He2 Ha1 Ha2 H. unfold image_name_of in H.
  do 3 apply append_inj_l in H.
  assert (Htag : tag1 = tag2 ∧
                 e1 +:+ "s_" +:+ "_f" +:+ a1 +:+ "_iso" +:+ i1
                 = e2 +:+ "s_" +:+ "_f" +:+ a2 +:+ "_iso" +:+ i2).
  { destruct Ht1 as [-> | ->], Ht2 as [-> | ->]; cbn in H;
      try discriminate H; by injection H. }
  destruct Htag as [-> Hrest]. split; [done |].
  apply (append_sep "s") in Hrest as [-> Hrest]; try done.
  split; [done |]. injection Hrest as Hrest.
  apply (append_sep "_") in Hrest as [-> Hrest]; try done.
  split; [done |]. by injection Hrest.
Qed.

(** A camera in bulb mode, and one set to 1/30 s. *)
Lemma verifyBulbMode_substring_witness :
  let bulb := Sim.boot (Sim.camera [] []) in
  (verifyBulbMode (Sim.env 1) bulb).1 = Ok true ∧
  bulb_verified (Sim.report "Shutter Speed" "1/30") = false.
Proof.
  intros bulb.
  destruct (verifyBulbMode_substring (Sim.env 1) bulb) as [Hrun Hiff].
  split; [| vm_compute; reflexivity].
  rewrite Hrun. cbn [fst]. apply (f_equal Ok). apply Hiff.
  exists "Current: bulb". split; [| by vm_compute].
  vm_compute. do 3 right. left.
Defined.

(** * Frames and further properties of the script *)

Section Frames.

Context {D : Type} (R : relation (World D)) `{!Reflexive R, !Transitive R}.

Lemma keeps_ret {A} (a : A) : keeps R (mret a).
Proof. intros w r w' [= <- <-]. reflexivity. Qed.

Lemma keeps_raise {A} e : keeps R (raise e : M A).
Proof. intros w r w' [= <- <-]. reflexivity. Qed.

Lemma keeps_lift {A} (x : result A) : keeps R (lift x).
Proof. intros w r w' [= <- <-]. reflexivity. Qed.

(** The continuation is only met with values the first part returned. *)
Lemma keeps_bind {A B} (m : M A) (f : A → M B) :
  keeps R m →
  (∀ a, (∃ w w', m w = (Ok a, w')) → keeps R (f a)) →
  keeps R (m ≫= f).
Proof.
  intros Hm Hf w r w' H. rewrite bind_unfold in H.
  destruct (m w) as [[a | e] w1] eqn:E.
  - transitivity w1; [by eapply Hm |]. eapply Hf; eauto.
  - injection H as <- <-. by eapply Hm.
Qed.

Lemma keeps_for_each {A} (l : list A) (body : A → M unit) :
  (∀ x, keeps R (body x)) → keeps R (for_each l body).
Proof.
  intros Hb. induction l as [| x l IH]; cbn [for_each].
  - apply keeps_ret.
  - apply keeps_bind; auto.
Qed.

Lemma keeps_for_range n (body : M unit) :
  keeps R body → keeps R (for_range n body).
Proof.
  intros Hb. induction n as [| n IH]; cbn [for_range].
  - apply keeps_ret.
  - apply keeps_bind; auto.
Qed.

Lemma keeps_for_range_return n (body : M bool) :
  keeps R body → keeps R (for_range_return n body).
Proof.
  intros Hb. induction n as [| n IH]; cbn [for_range_return].
  - apply keeps_ret.
  - apply keeps_bind; [done |]. intros [] _; [done | apply keeps_ret].
Qed.

End Frames.

Lemma level_app b l1 l2 : level b (l1 ++ l2)%list = level (level b l1) l2.
Proof. apply foldl_app. Qed.

#[global] Instance emits_refl {D} P : Reflexive (@emits D P).
Proof.
  intros w. exists []. by rewrite app_nil_r.
Qed.

#[global] Instance emits_trans {D} P : Transitive (@emits D P).
Proof.
  intros w1 w2 w3 (l1 & E1 & F1 & L1) (l2 & E2 & F2 & L2).
  exists (l1 ++ l2)%list. split; [by rewrite E2, E1, app_assoc |].
  split; [by apply Forall_app |]. by rewrite level_app, <- L1.
Qed.

Lemma emits_weaken {D} (P Q : event → Prop) (w w' : World D) :
  (∀ e, P e → Q e) → emits P w w' → emits Q w w'.
Proof.
  intros HPQ (l & E & F & L). exists l. split; [done |]. split; [| done].
  eapply Forall_impl; eauto.
Qed.

(** Without GPIO calls the relay stays as it was. *)
Lemma level_no_gpio b l :
  Forall (λ e, e ≠ EGpioSetup ∧ ∀ high, e ≠ EGpioOut high) l → level b l = b.
Proof.
  induction l as [| e l IH] using rev_ind; [done |].
  intros [Hl He]%Forall_app. apply Forall_singleton in He as [H1 H2].
  rewrite level_app, IH by done. destruct e; cbn; try done.
  by destruct (H2 high).
Qed.

(** Without [GPIO.output(2, HIGH)] a dark relay stays dark. *)
Lemma level_low l : Forall not_high l → level false l = false.
Proof.
  induction l as [| e l IH] using rev_ind; [done |].
  intros [Hl He]%Forall_app. rewrite Forall_singleton in He.
  rewrite level_app, IH by done. destruct e as [| [] | | |]; cbn; done.
Qed.

Create HintDb frames.

(** The frame rules, by the shape of the computation. *)
Ltac frame_step :=
  lazymatch goal with
  | |- keeps _ (mret _) => apply keeps_ret; apply _
  | |- keeps _ (raise _) => apply keeps_raise; apply _
  | |- keeps _ (lift _) => apply keeps_lift; apply _
  | |- keeps _ (mbind _ _) => (apply keeps_bind; try apply _); [| intros ? ?]
  | |- keeps _ (for_each _ _) => (apply keeps_for_each; try apply _); intros ?
  | |- keeps _ (for_range _ _) => apply keeps_for_range; try apply _
  | |- keeps _ (for_range_return _ _) =>
      apply keeps_for_range_return; try apply _
  | |- keeps _ (if ?b then _ else _) => destruct b eqn:?
  | |- keeps _ (match ?x with _ => _ end) => destruct x eqn:?
  | |- keeps _ _ => solve [eauto with frames]
  end.

Ltac frame := repeat frame_step.

(** A library call: one event or none. *)
Ltac prim :=
  let w := fresh "w" in
  intros w ? ?;
  repeat match goal with
         | |- context [match ?x with _ => _ end] => destruct x
         end;
  intros [= <- <-];
  first [ by (exists []; rewrite app_nil_r)
        | by (eexists [_]; split; [done |]; split;
              [by apply Forall_singleton | done]) ].

Section Primitives.

Context {D : Type} (env : Env D) (P : event → Prop).

Lemma time_time_emits : keeps (emits P) (time_time env).
Proof. unfold time_time. prim. Qed.

Lemma time_sleep_emits d : P (ESleep d) → keeps (D:=D) (emits P) (time_sleep d).
Proof. intros HP. unfold time_sleep. prim. Qed.

Lemma GPIO_setup_emits : P EGpioSetup → keeps (D:=D) (emits P) GPIO_setup.
Proof. intros HP. unfold GPIO_setup. prim. Qed.

Lemma GPIO_output_emits high :
  P (EGpioOut high) → keeps (D:=D) (emits P) (GPIO_output high).
Proof. intros HP. unfold GPIO_output. prim. Qed.

Lemma subprocess_run_emits c :
  P (ERun c) → keeps (emits P) (subprocess_run env c).
Proof. intros HP. unfold subprocess_run. prim. Qed.

Lemma os_listdir_emits : keeps (emits P) (os_listdir env).
Proof. unfold os_listdir. prim. Qed.

Lemma os_chdir_emits path : keeps (emits P) (os_chdir env path).
Proof. unfold os_chdir. prim. Qed.

Lemma open_read_emits path : keeps (emits P) (open_read env path).
Proof. unfold open_read. prim. Qed.

Lemma print_emits msg : P (EPrint msg) → keeps (D:=D) (emits P) (print msg).
Proof. intros HP. unfold print. prim. Qed.

Lemma float_emits s : keeps (emits P) (float env s).
Proof. unfold float. prim. Qed.

Lemma item_emits conf key : keeps (D:=D) (emits P) (item conf key).
Proof. unfold item. destruct (conf !! key); frame. Qed.

End Primitives.

#[global] Hint Resolve time_time_emits time_sleep_emits GPIO_setup_emits
  GPIO_output_emits subprocess_run_emits os_listdir_emits os_chdir_emits
  open_read_emits print_emits float_emits item_emits : frames.
#[global] Hint Extern 1 (is_run _) => exact I : frames.
#[global] Hint Extern 1 (not_high _) => discriminate : frames.
#[global] Hint Extern 1 True => exact I : frames.

Section Functions.

Context {D : Type} (env : Env D) (P : event → Prop).
Hypothesis P_run : ∀ c, P (ERun c).

Lemma killMonitorProcess_emits : keeps (emits P) (killMonitorProcess env).
Proof using P_run. unfold killMonitorProcess. frame. Qed.

Lemma verifyCameraConnect_emits : keeps (emits P) (verifyCameraConnect env).
Proof using P_run. unfold verifyCameraConnect. frame. Qed.

Lemma verifyBulbMode_emits : keeps (emits P) (verifyBulbMode env).
Proof using P_run. unfold verifyBulbMode. frame. Qed.

Lemma loadconfigurableParameterDicts_emits a i :
  keeps (emits P) (loadconfigurableParameterDicts env a i).
Proof. unfold loadconfigurableParameterDicts, load_dict. frame. Qed.

Lemma program_setting_emits setting value :
  keeps (emits P) (program_setting env setting value).
Proof using P_run. unfold program_setting. frame. Qed.

Lemma setParameterByValue_emits setting value :
  keeps (emits P) (setParameterByValue env setting value).
Proof using P_run.
  unfold setParameterByValue.
  destruct (decide (setting ∈ ["aperture"; "iso"])) as [Hs | Hs].
  - rewrite (bool_decide_eq_true_2 _ Hs). cbn [negb].
    assert (Hcase : setting = "aperture" ∨ setting = "iso").
    { apply elem_of_cons in Hs as [-> | Hs]; [by left |].
      apply elem_of_cons in Hs as [-> | Hs]; [by right |].
      by apply elem_of_nil in Hs. }
    pose proof loadconfigurableParameterDicts_emits.
    pose proof program_setting_emits.
    destruct Hcase as [-> | ->]; cbn [String.eqb Ascii.eqb Bool.eqb]; frame.
  - rewrite (bool_decide_eq_false_2 _ Hs). cbn [negb]. frame.
Qed.

End Functions.

#[global] Hint Resolve killMonitorProcess_emits verifyCameraConnect_emits
  verifyBulbMode_emits setParameterByValue_emits : frames.

Section Captures.

Context {D : Type} (env : Env D) (P : event → Prop).
Hypothesis P_run : ∀ c, P (ERun c).

Lemma readConfFile_emits filename capture_profile :
  (∀ msg, P (EPrint msg)) →
  keeps (emits P) (readConfFile env filename capture_profile).
Proof. intros P_print. unfold readConfFile. frame. Qed.

Lemma singleCapture_emits wait_time exposure_time aperture iso subject_name
    timestamp lights :
  (lights = "on" → P (EGpioOut true) ∧ P (ESleep 3)) →
  keeps (emits P)
    (singleCapture env wait_time exposure_time aperture iso subject_name
       timestamp lights).
Proof using P_run.
  intros Hl. unfold singleCapture.
  destruct (String.eqb_spec lights "on") as [E | _];
    [destruct (Hl E) |]; frame.
Qed.

Lemma seriesCapture_emits interval duration cycles wait_time exposure_time
    aperture iso subject_name lights :
  (∀ d, P (ESleep d)) →
  (lights = "on" → P (EGpioOut true)) →
  keeps (emits P)
    (seriesCapture env interval duration cycles wait_time exposure_time
       aperture iso subject_name lights).
Proof using P_run.
  intros P_sleep Hl. unfold seriesCapture, seriesCycle.
  assert (∀ ts, keeps (emits P)
            (singleCapture env wait_time exposure_time aperture iso
               subject_name ts lights))
    by (intros ts; apply singleCapture_emits; auto).
  frame.
Qed.

Lemma dualSeriesCapture_emits interval duration cycles wait_time
    exposure_time_light exposure_time_dark aperture_light aperture_dark
    iso_light iso_dark subject_name :
  (∀ d, P (ESleep d)) →
  (∀ high, P (EGpioOut high)) →
  keeps (emits P)
    (dualSeriesCapture env interval duration cycles wait_time
       exposure_time_light exposure_time_dark aperture_light aperture_dark
       iso_light iso_dark subject_name).
Proof using P_run.
  intros P_sleep P_out. unfold dualSeriesCapture, dualSeriesCycle.
  assert (∀ e a i ts, keeps (emits P)
            (singleCapture env wait_time e a i subject_name ts "off"))
    by (intros; by apply singleCapture_emits).
  frame.
Qed.

End Captures.

(** ** The script as a whole *)

Section Whole.

Context {D : Type} (env : Env D).

Lemma bind_assoc {A B C} (m : M (D:=D) A) (f : A → M B) (g : B → M C) w :
  ((m ≫= f) ≫= g) w = (m ≫= λ a, f a ≫= g) w.
Proof.
  rewrite (bind_unfold (m ≫= f)), !(bind_unfold m).
  by destruct (m w) as [[a | e] w1].
Qed.

Lemma for_each_returns {A} (l : list A) (body : A → M (D:=D) unit) :
  (∀ x w, ∃ w', body x w = (Ok tt, w')) →
  ∀ w, ∃ w', for_each l body w = (Ok tt, w').
Proof.
  intros Hb. induction l as [| x l IH]; intros w; cbn [for_each].
  - by exists w.
  - destruct (Hb x w) as [w1 H1]. rewrite (bind_Ok _ _ _ _ _ H1). apply IH.
Qed.

Lemma subprocess_run_returns c (w : World D) :
  ∃ out w', subprocess_run env c w = (Ok out, w').
Proof. unfold subprocess_run. destruct (exec env c (dev w)). eauto. Qed.

Lemma killMonitorProcess_returns (w : World D) :
  ∃ w', killMonitorProcess env w = (Ok tt, w').
Proof.
  unfold killMonitorProcess.
  destruct (subprocess_run_returns
              (Shell "ps aux | grep 'gvfs' | awk '{print $2}'") w)
    as (out & w1 & H1).
  rewrite (bind_Ok _ _ _ _ _ H1). apply for_each_returns. clear.
  intros row w. destruct (negb _); [| by eexists].
  destruct (subprocess_run_returns (Argv ["ps"; "-p"; row]) w)
    as (out & w1 & H1).
  rewrite (bind_Ok _ _ _ _ _ H1). apply for_each_returns. clear.
  intros line w. destruct (_ && _); [| by eexists].
  destruct (subprocess_run_returns
              (Argv ["kill"; Py.upto_find " " line]) w) as (out & w1 & H1).
  rewrite (bind_Ok _ _ _ _ _ H1). by eexists.
Qed.

Lemma verifyCameraConnect_returns (w : World D) :
  ∃ b w', verifyCameraConnect env w = (Ok b, w').
Proof.
  unfold verifyCameraConnect.
  destruct (subprocess_run_returns (Shell "gphoto2 --auto-detect") w)
    as (out & w1 & H1).
  rewrite (bind_Ok _ _ _ _ _ H1). by do 2 eexists.
Qed.

Lemma verifyBulbMode_returns (w : World D) :
  ∃ b w', verifyBulbMode env w = (Ok b, w').
Proof.
  unfold verifyBulbMode.
  destruct (subprocess_run_returns
              (Shell "gphoto2 --get-config shutterspeed") w)
    as (out & w1 & H1).
  rewrite (bind_Ok _ _ _ _ _ H1). by do 2 eexists.
Qed.

(** The checks never raise; they set the relay up, wait, and then only run
    commands. *)
Lemma checks_run (w : World D) :
  ∃ b w1 l,
    checks env w = (Ok b, w1) ∧ relay w1 = false ∧
    trace w1 = (trace w ++ EGpioSetup :: ESleep 2 :: l)%list ∧
    Forall is_run l.
Proof.
  unfold checks. cbv zeta.
  set (wi := emit (ESleep 2) (emit EGpioSetup (set_relay false w))).
  rewrite (bind_Ok _ _ w true wi) by reflexivity.
  assert (Hrest : ∀ (m : M bool) b w1,
            keeps (emits is_run) m → m wi = (Ok b, w1) →
            relay w1 = false ∧
            ∃ l, trace w1 = (trace w ++ EGpioSetup :: ESleep 2 :: l)%list ∧
                 Forall is_run l).
  { intros m b w1 Hm H. destruct (Hm _ _ _ H) as (l & E & F & L).
    split.
    - rewrite L. apply level_no_gpio. eapply Forall_impl; [exact F |].
      by intros [].
    - exists l. split; [| done]. rewrite E. cbn. by rewrite <- !app_assoc. }
  match goal with
  | |- ∃ b w1 l, ?m wi = _ ∧ _ =>
      assert (Hm : keeps (emits is_run) m) by frame;
      assert (Hret : ∃ b w1, m wi = (Ok b, w1))
  end.
  { destruct (killMonitorProcess_returns wi) as (wk & Hk).
    rewrite (bind_Ok _ _ _ _ _ Hk).
    destruct (verifyCameraConnect_returns wk) as (b & wc & Hc).
    rewrite (bind_Ok _ _ _ _ _ Hc). destruct b; [| by do 2 eexists].
    apply verifyBulbMode_returns. }
  destruct Hret as (b & w1 & H). exists b, w1.
  destruct (Hrest _ _ _ Hm H) as (Hr & l & E & F). by exists l.
Qed.

Lemma main_checks capture_profile (w : World D) :
  main env capture_profile w =
  (checks env ;; run_profile env capture_profile) w.
Proof.
  unfold main, checks. cbv zeta.
  rewrite bind_assoc, !(bind_unfold initRelayControl).
  destruct (initRelayControl w) as [[p1 | e] w1]; [| done].
  rewrite bind_assoc.
  rewrite !(bind_unfold (if p1 then killMonitorProcess env else mret ())).
  destruct ((if p1 then killMonitorProcess env else mret ()) w1)
    as [[[] | e] w2]; [| done].
  rewrite bind_assoc.
  rewrite !(bind_unfold (if p1 then verifyCameraConnect env else mret p1)).
  destruct ((if p1 then verifyCameraConnect env else mret p1) w2)
    as [[p2 | e] w3]; [| done].
  reflexivity.
Qed.

Lemma main_split capture_profile (w : World D) :
  main env capture_profile w =
  run_profile env capture_profile (checks env w).2.
Proof.
  rewrite main_checks. destruct (checks_run w) as (b & w1 & l & H & _).
  by rewrite (bind_Ok _ _ _ _ _ H), H.
Qed.

Lemma item_Ok (conf : gmap string string) key v :
  (∃ w w' : World D, item conf key w = (Ok v, w')) → conf !! key = Some v.
Proof.
  intros (w & w' & H). unfold item in H.
  destruct (conf !! key); [by injection H as -> | discriminate H].
Qed.

Lemma readConfFile_Ok filename capture_profile conf (w w' : World D) :
  readConfFile env filename capture_profile w = (Ok conf, w') →
  ∃ text, read_file env filename (dev w) = Some text ∧
          parse_conf text = Ok conf.
Proof.
  intros H. unfold readConfFile in H.
  apply bind_Ok_inv in H as (text & w1 & Ht & H).
  apply bind_Ok_inv in H as (conf' & w2 & Hc & H).
  apply bind_Ok_inv in H as (? & w3 & _ & H).
  rewrite ret_unfold in H. injection H as -> _.
  unfold open_read in Ht. destruct (read_file _ _ _) as [t |] eqn:E;
    [| discriminate Ht].
  injection Ht as -> _. unfold lift in Hc. injection Hc as Hc _.
  eauto.
Qed.

(** The frame of the second half: the light is switched on only by the
    alternating scheduler or by a configuration that asks for it. *)
Lemma run_profile_emits (P : event → Prop) capture_profile (w : World D) :
  (∀ c, P (ERun c)) → (∀ d, P (ESleep d)) → (∀ msg, P (EPrint msg)) →
  P (EGpioOut false) →
  (P (EGpioOut true) ∨
   capture_profile ≠ "dual_series" ∧
   ∀ text conf,
     read_file env (capture_profile +:+ ".conf") (dev w) = Some text →
     parse_conf text = Ok conf → conf !! "lights" ≠ Some "on") →
  emits P w (run_profile env capture_profile w).2.
Proof.
  intros P_run P_sleep P_print P_low P_high.
  pose proof (readConfFile_emits env P (capture_profile +:+ ".conf")
                capture_profile P_print) as Hread.
  destruct (run_profile env capture_profile w) as [r w'] eqn:H.
  unfold run_profile, runCloseoutOps in H. cbv zeta in H.
  rewrite bind_unfold in H.
  destruct (readConfFile env _ capture_profile w) as [[conf | e] w1] eqn:E;
    [| injection H as <- <-; by eapply Hread].
  transitivity w1; [by eapply Hread |].
  assert (Hlights : P (EGpioOut true) ∨
            capture_profile ≠ "dual_series" ∧ conf !! "lights" ≠ Some "on").
  { destruct P_high as [| [Hp Hoff]]; [by left | right]. split; [done |].
    apply readConfFile_Ok in E as (text & Ht & Hc). by eapply Hoff. }
  clear E Hread P_high.
  match type of H with
  | ?m w1 = _ => enough (K : keeps (emits P) m) by (by eapply K)
  end.
  clear H. frame.
  - apply singleCapture_emits; [done |]. intros ->. split; [| done].
    destruct Hlights as [| [_ Hoff]]; [done |].
    destruct Hoff. by eapply item_Ok.
  - apply seriesCapture_emits; [done | done |]. intros ->.
    destruct Hlights as [| [_ Hoff]]; [done |].
    destruct Hoff. by eapply item_Ok.
  - apply dualSeriesCapture_emits; [done | done |]. intros [|]; [| done].
    destruct Hlights as [| [Hp _]]; [done |]. destruct Hp.
    repeat match goal with
           | H : (_ =? _) = false |- _ => clear H
           | H : _ || _ = true |- _ => apply orb_true_iff in H as [H | H]
           | H : (_ =? _) = true |- _ => apply String.eqb_eq in H
           end; congruence.
Qed.

(** X1: the camera checks do not gate the run.  The start of the script
    never raises and leaves a boolean in [proceed]; whatever that boolean
    is, the script goes on to read the configuration and to run the capture
    profile, in the world the checks left. *)
Theorem main_ignores_checks capture_profile (w : World D) :
  ∃ proceed,
    (checks env w).1 = Ok proceed ∧
    main env capture_profile w =
      run_profile env capture_profile (checks env w).2.
Proof.
  destruct (checks_run w) as (b & w1 & l & H & _).
  exists b. split; [by rewrite H | apply main_split].
Qed.

(** X2: in every outcome of the script, exceptions included, the first two
    things done to the outside are the set-up of pin 2 at LOW and the
    two-second wait of [initRelayControl]. *)
Theorem main_starts_with_setup capture_profile (w : World D) :
  ∃ l, trace (main env capture_profile w).2
       = (trace w ++ EGpioSetup :: ESleep 2 :: l)%list.
Proof.
  rewrite main_split. destruct (checks_run w) as (b & w1 & l & H & _ & E & _).
  rewrite H. cbn [snd].
  destruct (run_profile_emits (λ _, True) capture_profile w1)
    as (l' & E' & _); auto.
  exists (l ++ l')%list. rewrite E', E, <- !app_assoc. reflexivity.
Qed.

(** X3: with a profile other than [dual_series] and a configuration whose
    [lights] is not [on], the script never drives pin 2 HIGH, and the relay
    is LOW when the script ends, however it ends. *)
Theorem main_keeps_dark capture_profile (w : World D) :
  capture_profile ≠ "dual_series" →
  (∀ text conf,
     read_file env (capture_profile +:+ ".conf") (dev (checks env w).2)
       = Some text →
     parse_conf text = Ok conf → conf !! "lights" ≠ Some "on") →
  relay (main env capture_profile w).2 = false ∧
  ∃ l, trace (main env capture_profile w).2 = (trace w ++ l)%list ∧
       EGpioOut true ∉ l.
Proof.
  intros Hp Hoff. rewrite main_split.
  destruct (checks_run w) as (b & w1 & l & H & Hr & E & F).
  rewrite H in Hoff |- *. cbn [snd] in *.
  destruct (run_profile_emits not_high capture_profile w1)
    as (l' & E' & F' & L'); try done; [by right |].
  split.
  - rewrite L', Hr. by apply level_low.
  - exists (EGpioSetup :: ESleep 2 :: l ++ l')%list. split.
    + rewrite E', E, <- !app_assoc. reflexivity.
    + rewrite !not_elem_of_cons, not_elem_of_app. split; [done |].
      split; [done |]. split.
      * intros Hin. by apply (proj1 (Forall_forall _ _) F) in Hin.
      * intros Hin. by apply (proj1 (Forall_forall _ _) F') in Hin.
Qed.

End Whole.

Lemma emits_same_relay {D} (P : event → Prop) (w w' : World D) :
  (∀ e, P e → e ≠ EGpioSetup ∧ ∀ high, e ≠ EGpioOut high) →
  emits P w w' → relay w' = relay w.
Proof.
  intros HP (l & _ & F & ->). apply level_no_gpio.
  eapply Forall_impl; eauto.
Qed.

Lemma is_run_no_gpio e :
  is_run e → e ≠ EGpioSetup ∧ ∀ high, e ≠ EGpioOut high.
Proof. by destruct e. Qed.

Section Exposure.

Context {D : Type} (env : Env D).

(** With [lights='on'] the exposure is the one taken with the light left
    alone, started after the relay is driven HIGH and three seconds have
    passed. *)
Lemma singleCapture_on wait_time exposure_time aperture iso subject_name
    timestamp (w : World D) :
  singleCapture env wait_time exposure_time aperture iso subject_name
    timestamp "on" w =
  singleCapture env wait_time exposure_time aperture iso subject_name
    timestamp "off"
    (emit (ESleep 3) (emit (EGpioOut true) (set_relay true w))).
Proof.
  unfold singleCapture. cbn [String.eqb Ascii.eqb Bool.eqb].
  rewrite (bind_Ok _ _ w tt
             (emit (ESleep 3) (emit (EGpioOut true) (set_relay true w))))
    by reflexivity.
  by rewrite (bind_Ok (mret tt) _ _ tt
                (emit (ESleep 3) (emit (EGpioOut true) (set_relay true w))))
    by reflexivity.
Qed.

(** X4: [singleCapture] and the light, in every outcome.  With
    [lights='on'] it drives the relay HIGH, waits three seconds and leaves
    the relay HIGH; otherwise it leaves the relay as it was.  All it does to
    the outside after that is running commands: it does not sleep again, it
    prints nothing and it never switches the light off. *)
Theorem singleCapture_light wait_time exposure_time aperture iso subject_name
    timestamp lights (w : World D) :
  let w' := (singleCapture env wait_time exposure_time aperture iso
               subject_name timestamp lights w).2 in
  relay w' = (if String.eqb lights "on" then true else relay w) ∧
  ∃ l, trace w' =
         (trace w
          ++ (if String.eqb lights "on" then [EGpioOut true; ESleep 3] else [])
          ++ l)%list ∧
       Forall is_run l.
Proof.
  intros w'. subst w'.
  assert (Hoff : ∀ lights', lights' ≠ "on" →
            keeps (emits is_run)
              (singleCapture env wait_time exposure_time aperture iso
                 subject_name timestamp lights')).
  { intros lights' Hl. apply singleCapture_emits; [done | done]. }
  destruct (String.eqb_spec lights "on") as [-> | Hl].
  - rewrite singleCapture_on.
    destruct (singleCapture _ _ _ _ _ _ _ "off" _) as [r w'] eqn:H.
    apply Hoff in H as (l & E & F & L); [| done]. cbn [snd]. split.
    + rewrite L. by apply level_no_gpio, (Forall_impl _ _ _ F), is_run_no_gpio.
    + exists l. split; [| done]. rewrite E. cbn. by rewrite <- !app_assoc.
  - destruct (singleCapture _ _ _ _ _ _ _ lights _) as [r w'] eqn:H.
    apply Hoff in H as (l & E & F & L); [| done]. cbn [snd]. split.
    + rewrite L. by apply level_no_gpio, (Forall_impl _ _ _ F), is_run_no_gpio.
    + by exists l.
Qed.

(** X5: when the aperture or the ISO cannot be programmed, [singleCapture]
    returns [False] in the world the failed programming left: the ISO is
    not tried after a failed aperture, and no shutter command is sent.
    This holds for every [lights] and with or without a [timestamp], for an
    exposure time that [float] reads; the programming starts in the world
    [w0] that the switching of the light and the reading of the clock for
    the stamp leave. *)
Theorem singleCapture_unprogrammed wait_time exposure_time aperture iso
    subject_name timestamp lights q (w w1 w2 : World D) :
  let lit := if String.eqb lights "on"
             then emit (ESleep 3) (emit (EGpioOut true) (set_relay true w))
             else w in
  let w0 := match timestamp with
            | None => tick lit
            | Some _ => lit
            end in
  to_float env exposure_time = Some q →
  (setParameterByValue env "aperture" aperture w0 = (Ok false, w1) →
   singleCapture env wait_time exposure_time aperture iso subject_name
     timestamp lights w = (Ok false, w1)) ∧
  (setParameterByValue env "aperture" aperture w0 = (Ok true, w1) →
   setParameterByValue env "iso" iso w1 = (Ok false, w2) →
   singleCapture env wait_time exposure_time aperture iso subject_name
     timestamp lights w = (Ok false, w2)).
Proof.
  intros lit w0 Hq.
  assert (Hf : ∀ w : World D, float env exposure_time w = (Ok q, w))
    by (intros w'; unfold float; by rewrite Hq).
  unfold singleCapture.
  assert (Hlit : (if String.eqb lights "on"
                  then GPIO_output true ;; time_sleep 3
                  else mret tt) w = (Ok tt, lit)).
  { subst lit. destruct (String.eqb lights "on"); [| reflexivity].
    by rewrite (bind_Ok _ _ w tt (emit (EGpioOut true) (set_relay true w)))
      by reflexivity. }
  rewrite (bind_Ok _ _ _ _ _ Hlit).
  assert (Hstamp : ∃ ts,
            match timestamp with
            | None => ts ← time_time env; mret (now_stamp env ts)
            | Some t => mret t
            end lit = (Ok ts, w0)).
  { subst w0. destruct timestamp as [t |]; [by exists t |].
    exists (now_stamp env (clock env (ticks lit))).
    by rewrite (bind_Ok _ _ lit (clock env (ticks lit)) (tick lit))
      by reflexivity. }
  destruct Hstamp as (ts & Hstamp). rewrite (bind_Ok _ _ _ _ _ Hstamp).
  rewrite (bind_Ok _ _ _ _ _ (Hf w0)).
  split.
  - intros Ha. by rewrite (bind_Ok _ _ _ _ _ Ha).
  - intros Ha Hi. rewrite (bind_Ok _ _ _ _ _ Ha). cbn [negb].
    by rewrite (bind_Ok _ _ _ _ _ Hi).
Qed.

End Exposure.

Section Schedulers.

Context {D : Type} (env : Env D).
Variables (interval wait_time : Q).

(** X6: the uniform scheduler does not look at the result of the exposure.
    After a cycle whose capture returned, with [True] or with [False], and
    whose remaining pause is not negative, it sleeps for that pause and
    goes on with the remaining cycles. *)
Theorem seriesCapture_goes_on exposure_time aperture iso subject_name lights
    duration cycles b (w w1 : World D) :
  singleCapture env wait_time exposure_time aperture iso subject_name
    (Some (strftime env (clock env (ticks w)))) lights (tick (tick w))
    = (Ok b, w1) →
  let pause :=
    (interval - (clock env (ticks w1) - clock env (S (ticks w))))%Q in
  (0 <= pause)%Q →
  (0 < cycles)%Z →
  seriesCapture env interval duration cycles wait_time exposure_time
    aperture iso subject_name lights w =
  seriesCapture env interval duration (cycles - 1) wait_time exposure_time
    aperture iso subject_name lights (emit (ESleep pause) (tick w1)).
Proof.
  intros H pause Hpause Hpos. unfold seriesCapture.
  replace (Z.to_nat cycles) with (S (Z.to_nat (cycles - 1))) by lia.
  cbn [for_range].
  assert (Hc : seriesCycle env interval wait_time exposure_time aperture iso
                 subject_name lights w
               = (Ok tt, emit (ESleep pause) (tick w1))).
  { rewrite (seriesCycle_capture env _ _ _ _ _ _ _ _ _ _ H).
    unfold time_sleep. fold pause. apply Qle_bool_iff in Hpause.
    by rewrite Hpause. }
  by rewrite (bind_Ok _ _ _ _ _ Hc).
Qed.

Lemma trunc_below_one q : (q < 1)%Q → (Py.trunc q <= 0)%Z.
Proof.
  destruct q as [n d]. unfold Qlt, Py.trunc. cbn. intros H.
  destruct (Z.le_gt_cases 0 n) as [Hn | Hn].
  - rewrite Z.quot_small; lia.
  - rewrite <- (Z.opp_involutive n), Z.quot_opp_l by lia.
    pose proof (Z.quot_pos (- n) (Z.pos d)). lia.
Qed.

(** X7: with [cycles = int(duration / interval)], a duration shorter than
    one interval, a negative one included, gives an empty loop: both
    schedulers return at once and nothing is done. *)
Theorem short_duration_no_exposure duration exposure_time aperture iso
    subject_name lights exposure_time_light exposure_time_dark aperture_light
    aperture_dark iso_light iso_dark (w : World D) :
  (0 < interval)%Q →
  (duration < interval)%Q →
  let cycles := Py.trunc (duration / interval) in
  seriesCapture env interval duration cycles wait_time exposure_time
    aperture iso subject_name lights w = (Ok tt, w) ∧
  dualSeriesCapture env interval duration cycles wait_time
    exposure_time_light exposure_time_dark aperture_light aperture_dark
    iso_light iso_dark subject_name w = (Ok tt, w).
Proof.
  intros Hi Hd cycles.
  assert (Hc : Z.to_nat cycles = 0%nat).
  { enough (cycles <= 0)%Z by lia. apply trunc_below_one.
    apply Qlt_shift_div_r; [done |]. by rewrite Qmult_1_l. }
  unfold seriesCapture, dualSeriesCapture. by rewrite Hc.
Qed.

(** The light is on at the end of every cycle that returns. *)
Lemma dualSeriesCycle_lit exposure_time_light exposure_time_dark
    aperture_light aperture_dark iso_light iso_dark subject_name
    b (w w' : World D) :
  dualSeriesCycle env interval wait_time exposure_time_light
    exposure_time_dark aperture_light aperture_dark iso_light iso_dark
    subject_name w = (Ok b, w') →
  relay w' = true.
Proof.
  intros H. unfold dualSeriesCycle in H.
  apply bind_Ok_inv in H as (? & wa & _ & H).
  apply bind_Ok_inv in H as (call_time & wb & _ & H).
  apply bind_Ok_inv in H as (? & wc & _ & H).
  apply bind_Ok_inv in H as (return_time & wd & _ & H).
  apply bind_Ok_inv in H as (? & we & He & H).
  injection He as _ <-.
  match type of H with
  | ?m ?w0 = _ =>
      assert (K : keeps (emits (λ e, is_run e ∨ ∃ d, e = ESleep d)) m)
  end.
  { assert (∀ e a i ts, keeps (emits (λ e, is_run e ∨ ∃ d, e = ESleep d))
              (singleCapture env wait_time e a i subject_name ts "off"))
      by (intros; apply singleCapture_emits; [by left | done]).
    frame; apply time_sleep_emits; eauto. }
  apply K in H. apply emits_same_relay in H; [by rewrite H |].
  intros e [He | [d ->]]; [by apply is_run_no_gpio | done].
Qed.

(** X8: when the alternating scheduler returns after at least one cycle,
    because the loop ended or because a failed light exposure cut it short,
    the relay is HIGH: switching the light off is left to the caller. *)
Theorem dualSeriesCapture_returns_lit duration cycles exposure_time_light
    exposure_time_dark aperture_light aperture_dark iso_light iso_dark
    subject_name (w w' : World D) :
  (0 < cycles)%Z →
  dualSeriesCapture env interval duration cycles wait_time
    exposure_time_light exposure_time_dark aperture_light aperture_dark
    iso_light iso_dark subject_name w = (Ok tt, w') →
  relay w' = true.
Proof.
  intros Hpos. unfold dualSeriesCapture.
  destruct (Z.to_nat cycles) as [| n] eqn:E; [lia |]. clear E Hpos.
  revert w. induction n as [| n IH]; intros w H; cbn [for_range_return] in H;
    apply bind_Ok_inv in H as (go_on & w1 & Hc & H);
    apply dualSeriesCycle_lit in Hc.
  - destruct go_on; injection H as <-; done.
  - destruct go_on; [by eapply IH | by injection H as <-].
Qed.

End Schedulers.

Section Programming.

Context {D : Type} (env : Env D).
Variables (setting value : string).

Let get := get_setting_cmd setting.
Let set := set_setting_cmd setting value.

Lemma program_setting_commands (w w' : World D) r :
  program_setting env setting value w = (r, w') →
  relay w' = relay w ∧ ticks w' = ticks w ∧
  ∃ l, trace w' = (trace w ++ l)%list ∧
       (l = [ERun get] ∧ r = Ok true ∨
        l = [ERun get; ERun set] ∧ r = Ok false ∨
        l = [ERun get; ERun set; ERun get] ∧ ∃ b, r = Ok b).
Proof.
  unfold program_setting, subprocess_run. rewrite bind_unfold.
  fold get set.
  destruct (exec env get (dev w)) as [out0 d0].
  destruct (already_set out0 value).
  { intros [= <- <-]. cbn. split; [done |]. split; [done |]. eauto. }
  rewrite bind_unfold. cbn [dev emit set_dev].
  destruct (exec env set d0) as [out1 d1].
  destruct (negb _).
  { intros [= <- <-]. cbn. split; [done |]. split; [done |].
    exists [ERun get; ERun set]. rewrite <- app_assoc. eauto. }
  rewrite bind_unfold. cbn [dev emit set_dev].
  destruct (exec env get d1) as [out2 d2].
  intros [= <- <-]. cbn. split; [done |]. split; [done |].
  exists [ERun get; ERun set; ERun get]. rewrite <- !app_assoc. eauto 6.
Qed.

(** X9: what a call of [setParameterByValue] sends to the camera, in every
    outcome: nothing, one read, a read and a write, or a read, a write and
    a read back.  [True] is returned after a lone read or after a read
    back, never without a command and never on the strength of a write
    alone; the relay and the clock are not touched. *)
Theorem setParameterByValue_commands (w : World D) :
  let r := (setParameterByValue env setting value w).1 in
  let w' := (setParameterByValue env setting value w).2 in
  relay w' = relay w ∧ ticks w' = ticks w ∧
  ∃ l, trace w' = (trace w ++ l)%list ∧
       (l = [] ∧ r ≠ Ok true ∨
        l = [ERun get] ∧ r = Ok true ∨
        l = [ERun get; ERun set] ∧ r = Ok false ∨
        l = [ERun get; ERun set; ERun get] ∧ ∃ b, r = Ok b).
Proof.
  intros r w'. subst r w'.
  assert (Hnone : ∀ r, r ≠ Ok true →
            relay (r, w).2 = relay w ∧ ticks (r, w).2 = ticks w ∧
            ∃ l, trace (r, w).2 = (trace w ++ l)%list ∧
                 (l = [] ∧ (r, w).1 ≠ Ok true ∨
                  l = [ERun get] ∧ (r, w).1 = Ok true ∨
                  l = [ERun get; ERun set] ∧ (r, w).1 = Ok false ∨
                  l = [ERun get; ERun set; ERun get] ∧ ∃ b, (r, w).1 = Ok b)).
  { intros r Hr. cbn. split; [done |]. split; [done |]. exists [].
    rewrite app_nil_r. eauto. }
  destruct (decide (setting ∈ ["aperture"; "iso"])) as [Hs | Hs].
  - destruct (loadconfigurableParameterDicts env aperture_dict_filename
                iso_dict_filename w) as [[[ad id] | e] w1] eqn:Hload.
    + pose proof (load_world _ _ _ _ _ _ Hload) as ->.
      rewrite (setParameterByValue_loaded env _ _ _ _ _ Hs Hload).
      destruct (in_values value _); [| by apply Hnone].
      destruct (program_setting env setting value w) as [r w'] eqn:H.
      apply program_setting_commands in H as (Hr & Ht & l & E & Hl).
      cbn [fst snd]. split; [done |]. split; [done |]. exists l.
      split; [done |]. tauto.
    + pose proof (load_world _ _ _ _ _ _ Hload) as ->.
      unfold setParameterByValue.
      rewrite (bool_decide_eq_true_2 _ Hs). cbn [negb].
      rewrite (bind_Raise _ _ _ _ _ Hload). by apply Hnone.
  - unfold setParameterByValue. rewrite (bool_decide_eq_false_2 _ Hs).
    by apply Hnone.
Qed.

End Programming.

Section Tables.

Context {D : Type} (env : Env D).

Lemma split_no_sep sep s : Py.has_char sep s = false → Py.split sep s = [s].
Proof.
  induction s as [| c s IH]; [done |]. cbn.
  destruct (Ascii.eqb c sep); [done |]. cbn. intros H. by rewrite IH.
Qed.

Lemma split_sep sep s :
  Py.has_char sep s = true →
  Py.split sep s = Py.before sep s :: Py.split sep (Py.after sep s).
Proof.
  unfold Py.after. induction s as [| c s IH]; [done |]. cbn.
  destruct (Ascii.eqb c sep); [done |]. cbn. intros H.
  rewrite IH by done. cbn.
  destruct (Py.after_aux sep s) eqn:E; [done |].
  exfalso. clear IH. induction s as [| x s IH]; [done |]. cbn in *.
  destruct (Ascii.eqb x sep); [done | auto].
Qed.

Lemma dict_lines_bad_row d lines :
  Exists bad_row lines → dict_lines d lines = Raise IndexError.
Proof.
  intros H. revert d. induction H as [line rest [Hi Ht] | line rest H IH];
    intros d; cbn [dict_lines].
  - unfold dict_line. by rewrite Hi, (split_no_sep _ _ Ht).
  - unfold dict_line. destruct (Py.contains "INDEX" line); [apply IH |].
    destruct (Py.split "009" line) as [| index [| v ?]]; [done | done |].
    apply IH.
Qed.

(** X10: both tables are loaded at every call for a supported setting,
    whichever of the two is asked for; a row with neither [INDEX] nor a TAB
    in either table (a blank line is one) makes the call raise [IndexError]
    before any command is sent. *)
Theorem setParameterByValue_bad_table setting value aperture_table iso_table
    (w : World D) :
  setting ∈ ["aperture"; "iso"] →
  read_file env aperture_dict_filename (dev w) = Some aperture_table →
  read_file env iso_dict_filename (dev w) = Some iso_table →
  Exists bad_row (Py.readlines aperture_table) ∨
  Exists bad_row (Py.readlines iso_table) →
  setParameterByValue env setting value w = (Raise IndexError, w).
Proof.
  intros Hs Ha Hi Hbad. unfold setParameterByValue.
  rewrite (bool_decide_eq_true_2 _ Hs). cbn [negb].
  apply bind_Raise.
  cbv [loadconfigurableParameterDicts load_dict open_read lift
       mbind M_bind mret M_ret].
  rewrite Ha.
  destruct (dict_lines ∅ (Py.readlines aperture_table)) as [ad | e] eqn:E.
  - rewrite Hi. destruct Hbad as [Hbad | Hbad].
    + by rewrite (dict_lines_bad_row _ _ Hbad) in E.
    + by rewrite (dict_lines_bad_row _ _ Hbad).
  - destruct Hbad as [Hbad | Hbad].
    + rewrite (dict_lines_bad_row _ _ Hbad) in E. by injection E as <-.
    + (* the aperture table fails first, with the same exception *)
      assert (He : e = IndexError); [| by rewrite He].
      clear -E. revert E. generalize (∅ : gmap string string).
      induction (Py.readlines aperture_table) as [| line rest IH];
        intros d; cbn [dict_lines]; [done |].
      unfold dict_line. destruct (Py.contains "INDEX" line); [apply IH |].
      destruct (Py.split "009" line) as [| index [| v ?]];
        [by intros [= <-] | by intros [= <-] | apply IH].
Qed.

End Tables.

(** ** Lines of the configuration file *)

Lemma split_cons sep s : ∃ h t, Py.split sep s = h :: t.
Proof.
  destruct s as [| c s]; cbn; [by eauto |].
  destruct (Ascii.eqb c sep); [by eauto |].
  destruct (Py.split sep s); eauto.
Qed.

(** X11: a non-blank line of the configuration file is taken exactly when
    its text before the first [#] holds one [=] and no more; the key and
    the value are then the stripped texts on either side of it.  Every
    other non-blank line raises [ValueError]. *)
Theorem conf_line_one_equals conf line :
  conf_line conf line =
  if String.eqb (Py.strip line) "" then Ok conf
  else
    let code := if Py.has_char "#" line then Py.before "#" line else line in
    if Py.has_char "=" code && negb (Py.has_char "=" (Py.after "=" code))
    then Ok (<[Py.strip (Py.before "=" code) :=
                 Py.strip (Py.after "=" code)]> conf)
    else Raise ValueError.
Proof.
  unfold conf_line. destruct (String.eqb (Py.strip line) ""); [done |].
  cbv zeta.
  generalize (if Py.has_char "#" line then Py.before "#" line else line).
  intros code.
  destruct (Py.has_char "=" code) eqn:E1; cbn [andb].
  - rewrite (split_sep _ _ E1).
    destruct (Py.has_char "=" (Py.after "=" code)) eqn:E2; cbn [negb].
    + rewrite (split_sep _ _ E2).
      by destruct (split_cons "=" (Py.after "=" (Py.after "=" code)))
        as (h & t & ->).
    + by rewrite (split_no_sep _ _ E2).
  - by rewrite (split_no_sep _ _ E1).
Qed.

Lemma rstrip_cons c s : Py.is_space c = false → Py.rstrip (String c s) ≠ "".
Proof. intros Hc. cbn. destruct (Py.rstrip s); by rewrite ?Hc. Qed.

Lemma append_cons x a b : String x a +:+ b = String x (a +:+ b).
Proof. reflexivity. Qed.

Lemma strip_nonblank a c b :
  Py.is_space c = false → Py.strip (a +:+ String c b) ≠ "".
Proof.
  intros Hc. unfold Py.strip. induction a as [| x a IH].
  - change ("" +:+ String c b) with (String c b). cbn [Py.lstrip].
    rewrite Hc. by apply rstrip_cons.
  - rewrite append_cons. cbn [Py.lstrip].
    destruct (Py.is_space x) eqn:Hx; [exact IH | by apply rstrip_cons].
Qed.

Lemma has_char_append c a b : Py.has_char c (a +:+ String c b) = true.
Proof.
  induction a as [| x a IH].
  - change ("" +:+ String c b) with (String c b). cbn.
    by rewrite Ascii.eqb_refl.
  - rewrite append_cons. cbn. rewrite IH. apply orb_true_r.
Qed.

Lemma before_append c a b :
  Py.has_char c a = false → Py.before c (a +:+ String c b) = a.
Proof.
  induction a as [| x a IH].
  - change ("" +:+ String c b) with (String c b). cbn.
    by rewrite Ascii.eqb_refl.
  - rewrite append_cons. cbn.
    destruct (Ascii.eqb x c); [done |]. cbn. intros H. by rewrite IH.
Qed.

(** X12: a comment that follows the text of a line is dropped: when the
    text has no [#] and is not blank, the line with [#] and a comment after
    it is read as the text alone. *)
Theorem conf_line_trailing_comment conf code comment :
  Py.has_char "#" code = false →
  Py.strip code ≠ "" →
  conf_line conf (code +:+ "#" +:+ comment) = conf_line conf code.
Proof.
  intros Hh Hs. unfold conf_line.
  change ("#" +:+ comment) with (String "#" comment).
  destruct (String.eqb_spec (Py.strip (code +:+ String "#" comment)) "")
    as [E | _]; [by apply strip_nonblank in E |].
  destruct (String.eqb_spec (Py.strip code) "") as [E | _]; [done |].
  by rewrite has_char_append, before_append, Hh.
Qed.

(** ** Configuration errors *)

Section Errors.

Context {D : Type} (env : Env D).

Lemma item_Some (conf : gmap string string) key v (w : World D) :
  conf !! key = Some v → item conf key w = (Ok v, w).
Proof. intros H. unfold item. by rewrite H. Qed.

Lemma item_None (conf : gmap string string) key (w : World D) :
  conf !! key = None → item conf key w = (Raise KeyError, w).
Proof. intros H. unfold item. by rewrite H. Qed.

Lemma readConfFile_run filename capture_profile text conf (w : World D) :
  read_file env filename (dev w) = Some text →
  parse_conf text = Ok conf →
  ∃ w', readConfFile env filename capture_profile w = (Ok conf, w') ∧
        trace w' =
          (trace w ++ map EPrint (conf_warnings capture_profile conf))%list ∧
        relay w' = relay w.
Proof.
  intros Hread Hparse.
  destruct (for_each_print (conf_warnings capture_profile conf) w)
    as (w' & Hrun & Ht & Hd & Hr & _).
  exists w'. split; [| done]. unfold readConfFile.
  rewrite (bind_Ok _ _ w text w) by (unfold open_read; by rewrite Hread).
  rewrite (bind_Ok _ _ w conf w) by (unfold lift; by rewrite Hparse).
  by rewrite (bind_Ok _ _ w tt w' Hrun).
Qed.

(** X13: [readConfFile] only warns, and the script fails right after: with
    the [single] profile, a configuration that lacks any of the five keys
    ends the script with [KeyError] once the warnings are printed, before
    anything is sent to the camera for the exposure, with the relay LOW. *)
Theorem main_single_missing_key key text conf (w : World D) :
  let w1 := (checks env w).2 in
  let run := main env "single" w in
  read_file env "single.conf" (dev w1) = Some text →
  parse_conf text = Ok conf →
  key ∈ single_keys →
  conf !! key = None →
  run.1 = Raise KeyError ∧ relay run.2 = false ∧
  trace run.2 = (trace w1 ++ map EPrint (conf_warnings "single" conf))%list.
Proof.
  intros w1 run Hread Hparse Hkey Hnone. subst run.
  rewrite main_split. fold w1.
  destruct (readConfFile_run "single.conf" "single" _ _ w1 Hread Hparse)
    as (w2 & Hrun & Ht & Hr).
  assert (Hlow : relay w1 = false).
  { subst w1. destruct (checks_run env w) as (b & w1 & l & H & Hl & _).
    by rewrite H. }
  enough (H : run_profile env "single" w1 = (Raise KeyError, w2))
    by (rewrite H; cbn [fst snd]; by rewrite Hr).
  unfold run_profile. cbv zeta.
  change ("single" +:+ ".conf") with "single.conf".
  rewrite (bind_Ok _ _ _ _ _ Hrun).
  cbn [String.eqb Ascii.eqb Bool.eqb].
  destruct (conf !! "subject") as [subject |] eqn:E1;
    [rewrite (bind_Ok _ _ _ _ _ (item_Some _ _ _ w2 E1))
    | by rewrite (bind_Raise _ _ _ _ _ (item_None _ _ w2 E1))].
  rewrite bind_assoc.
  destruct (conf !! "shutterspeed") as [shutterspeed |] eqn:E2;
    [rewrite (bind_Ok _ _ _ _ _ (item_Some _ _ _ w2 E2))
    | by rewrite (bind_Raise _ _ _ _ _ (item_None _ _ w2 E2))].
  rewrite bind_assoc.
  destruct (conf !! "aperture") as [aperture |] eqn:E3;
    [rewrite (bind_Ok _ _ _ _ _ (item_Some _ _ _ w2 E3))
    | by rewrite (bind_Raise _ _ _ _ _ (item_None _ _ w2 E3))].
  rewrite bind_assoc.
  destruct (conf !! "iso") as [iso |] eqn:E4;
    [rewrite (bind_Ok _ _ _ _ _ (item_Some _ _ _ w2 E4))
    | by rewrite (bind_Raise _ _ _ _ _ (item_None _ _ w2 E4))].
  rewrite bind_assoc.
  destruct (conf !! "lights") as [lights |] eqn:E5;
    [| by rewrite (bind_Raise _ _ _ _ _ (item_None _ _ w2 E5))].
  exfalso. unfold single_keys in Hkey.
  repeat (apply elem_of_cons in Hkey as [-> | Hkey]; [congruence |]).
  by apply elem_of_nil in Hkey.
Qed.

(** X14: with the [series] or the [dual_series] profile an [interval] of
    zero ends the script with [ZeroDivisionError] at the computation of
    [cycles], once the warnings are printed: before the [images] directory
    is entered and before any exposure, with the relay LOW. *)
Theorem main_zero_interval capture_profile text conf subject_name
    interval duration (qi qd : Q) (w : World D) :
  let w1 := (checks env w).2 in
  let run := main env capture_profile w in
  capture_profile = "series" ∨ capture_profile = "dual_series" →
  read_file env (capture_profile +:+ ".conf") (dev w1) = Some text →
  parse_conf text = Ok conf →
  conf !! "subject" = Some subject_name →
  conf !! "interval" = Some interval →
  conf !! "duration" = Some duration →
  to_float env interval = Some qi →
  to_float env duration = Some qd →
  (qi == 0)%Q →
  run.1 = Raise ZeroDivisionError ∧ relay run.2 = false ∧
  trace run.2 =
    (trace w1 ++ map EPrint (conf_warnings capture_profile conf))%list.
Proof.
  intros w1 run Hp Hread Hparse Hs Hi Hd Hqi Hqd Hzero. subst run.
  rewrite main_split. fold w1.
  destruct (readConfFile_run _ capture_profile _ _ w1 Hread Hparse)
    as (w2 & Hrun & Ht & Hr).
  assert (Hlow : relay w1 = false).
  { subst w1. destruct (checks_run env w) as (b & w1 & l & H & Hl & _).
    by rewrite H. }
  enough (H : run_profile env capture_profile w1
              = (Raise ZeroDivisionError, w2))
    by (rewrite H; cbn [fst snd]; by rewrite Hr).
  unfold run_profile. cbv zeta.
  rewrite (bind_Ok _ _ _ _ _ Hrun).
  rewrite (bind_Ok _ _ _ _ _ (item_Some _ _ _ w2 Hs)).
  assert (Hprofile : String.eqb capture_profile "single" = false
                     ∧ String.eqb capture_profile "series"
                       || String.eqb capture_profile "dual_series" = true)
    by (by destruct Hp as [-> | ->]).
  destruct Hprofile as [-> ->].
  assert (Hfi : (item conf "interval" ≫= float env) w2 = (Ok qi, w2)).
  { rewrite (bind_Ok _ _ _ _ _ (item_Some _ _ _ w2 Hi)).
    unfold float. by rewrite Hqi. }
  assert (Hfd : (item conf "duration" ≫= float env) w2 = (Ok qd, w2)).
  { rewrite (bind_Ok _ _ _ _ _ (item_Some _ _ _ w2 Hd)).
    unfold float. by rewrite Hqd. }
  rewrite bind_assoc, (bind_Ok _ _ _ _ _ Hfi).
  rewrite bind_assoc, (bind_Ok _ _ _ _ _ Hfd).
  assert (Hz : Qeq_bool (qi * 60) 0 = true).
  { apply Qeq_bool_iff. rewrite Hzero. reflexivity. }
  rewrite Hz. reflexivity.
Qed.

End Errors.

(** ** More on the schedulers *)

Section Lighting.

Context {D : Type} (env : Env D).

(** X15: the uniform scheduler keeps the lighting fixed.  In every outcome
    it neither sets pin 2 up again nor drives it LOW, so a light switched
    on by the first exposure stays on through the sleeps; and with [lights]
    other than [on] it does not drive the pin at all. *)
Theorem seriesCapture_fixed_lighting interval duration cycles wait_time
    exposure_time aperture iso subject_name lights (w : World D) :
  let w' := (seriesCapture env interval duration cycles wait_time
               exposure_time aperture iso subject_name lights w).2 in
  ∃ l, trace w' = (trace w ++ l)%list ∧
       (EGpioSetup ∉ l) ∧ (EGpioOut false ∉ l) ∧
       (lights ≠ "on" → (EGpioOut true ∉ l) ∧ relay w' = relay w).
Proof.
  intros w'. subst w'.
  destruct (seriesCapture env _ _ _ _ _ _ _ _ _ w) as [r w'] eqn:H.
  cbn [snd].
  pose (P := λ e, e ≠ EGpioSetup ∧ e ≠ EGpioOut false ∧
                  (lights ≠ "on" → e ≠ EGpioOut true)).
  assert (K : emits P w w').
  { eapply (seriesCapture_emits env P); [| | | exact H]; by intros. }
  destruct K as (l & E & F & L). exists l. split; [done |].
  rewrite Forall_forall in F.
  split; [intros Hin; by destruct (F _ Hin) as (? & ? & ?) |].
  split; [intros Hin; by destruct (F _ Hin) as (? & ? & ?) |].
  intros Hl. split; [intros Hin; by destruct (F _ Hin) as (_ & _ & [])|].
  rewrite L. apply level_no_gpio, Forall_forall. intros e Hin.
  destruct (F _ Hin) as (? & ? & Hh). split; [done |].
  intros [|]; [by apply Hh | done].
Qed.

(** X16: in the alternating scheduler, a dark exposure that returns with
    less than two seconds of the interval left makes the first cycle raise
    [ValueError] at [time.sleep], right after the relay was driven HIGH:
    the loop ends with the light on. *)
Theorem dualSeriesCapture_overrun interval duration cycles wait_time
    exposure_time_light exposure_time_dark aperture_light aperture_dark
    iso_light iso_dark subject_name bd (w w_c : World D) :
  singleCapture env wait_time exposure_time_dark aperture_dark iso_dark
    subject_name (Some (strftime env (clock env (ticks w)))) "off"
    (tick (emit (EGpioOut false) (set_relay false w))) = (Ok bd, w_c) →
  (interval - (clock env (ticks w_c) - clock env (ticks w)) < 2)%Q →
  (0 < cycles)%Z →
  let run := dualSeriesCapture env interval duration cycles wait_time
               exposure_time_light exposure_time_dark aperture_light
               aperture_dark iso_light iso_dark subject_name w in
  run = (Raise ValueError, emit (EGpioOut true) (set_relay true (tick w_c))) ∧
  relay run.2 = true.
Proof.
  intros Hdark Hlate Hpos run. subst run.
  enough (H : dualSeriesCapture env interval duration cycles wait_time
                exposure_time_light exposure_time_dark aperture_light
                aperture_dark iso_light iso_dark subject_name w
              = (Raise ValueError,
                 emit (EGpioOut true) (set_relay true (tick w_c))))
    by (by rewrite H).
  unfold dualSeriesCapture.
  destruct (Z.to_nat cycles) as [| n] eqn:E; [lia |].
  cbn [for_range_return]. apply bind_Raise. unfold dualSeriesCycle.
  rewrite (bind_Ok _ _ w tt (emit (EGpioOut false) (set_relay false w)))
    by reflexivity.
  rewrite (bind_Ok _ _ _ (clock env (ticks w))
             (tick (emit (EGpioOut false) (set_relay false w))))
    by reflexivity.
  unfold now_stamp. rewrite (bind_Ok _ _ _ _ _ Hdark).
  rewrite (bind_Ok _ _ w_c (clock env (ticks w_c)) (tick w_c)) by reflexivity.
  rewrite (bind_Ok _ _ (tick w_c) tt
             (emit (EGpioOut true) (set_relay true (tick w_c))))
    by reflexivity.
  apply bind_Raise. unfold time_sleep.
  destruct (Qle_bool 0 _) eqn:Hle; [| reflexivity].
  apply Qle_bool_iff in Hle. lra.
Qed.

(** X17: [killMonitorProcess] never raises, whatever the commands print.
    It runs the [ps aux] pipeline once and after it only [ps -p] and
    [kill] commands, and it leaves the relay as it was. *)
Theorem killMonitorProcess_commands (w : World D) :
  let run := killMonitorProcess env w in
  run.1 = Ok tt ∧ relay run.2 = relay w ∧
  ∃ l, trace run.2 =
         (trace w
          ++ ERun (Shell "ps aux | grep 'gvfs' | awk '{print $2}'") :: l)%list ∧
       Forall (λ e, ∃ arg, e = ERun (Argv ["ps"; "-p"; arg]) ∨
                           e = ERun (Argv ["kill"; arg])) l.
Proof.
  intros run. subst run.
  destruct (killMonitorProcess_returns env w) as (w' & H).
  rewrite H. cbn [fst snd]. split; [done |].
  unfold killMonitorProcess in H.
  apply bind_Ok_inv in H as (out & w1 & H1 & H).
  unfold subprocess_run in H1. destruct (exec env _ (dev w)) as [out' d].
  injection H1 as -> <-.
  match type of H with
  | ?m ?w0 = _ =>
      assert (K : keeps (emits (λ e, ∃ arg,
                           e = ERun (Argv ["ps"; "-p"; arg]) ∨
                           e = ERun (Argv ["kill"; arg]))) m)
  end.
  { frame; apply subprocess_run_emits; eauto. }
  apply K in H as (l & E & F & L). split.
  - rewrite L. cbn. apply level_no_gpio, (Forall_impl _ _ _ F).
    by intros e [arg [-> | ->]].
  - exists l. split; [| done]. rewrite E. cbn. by rewrite <- app_assoc.
Qed.

End Lighting.


Section Verified.

Context {D : Type} (env : Env D).

(** X18: [setParameterByValue] returns [True] only on the strength of a
    report of the camera: the last command of the call is the read of the
    setting, and the output of that read has a [Current:] row whose value
    is the requested one. *)
Theorem setParameterByValue_verified setting value (w w' : World D) :
  setParameterByValue env setting value w = (Ok true, w') →
  last (trace w') = Some (ERun (get_setting_cmd setting)) ∧
  ∃ d row,
    (exec env (get_setting_cmd setting) d).2 = dev w' ∧
    row ∈ rows_of (exec env (get_setting_cmd setting) d).1 ∧
    Py.contains "Current:" row = true ∧ current_of row = value.
Proof.
  intros H.
  apply setParameterByValue_true_inv in H as (_ & _ & _ & _ & _ & H).
  assert (Hrow : ∀ out, already_set out value = true →
            ∃ row, row ∈ rows_of out ∧
                   Py.contains "Current:" row = true ∧
                   current_of row = value).
  { intros out Ha. apply existsb_elem_of in Ha as (row & Hin & Hr).
    unfold reports in Hr. apply andb_true_iff in Hr as [Hc He].
    apply String.eqb_eq in He. eauto. }
  unfold program_setting, subprocess_run in H. rewrite bind_unfold in H.
  destruct (exec env (get_setting_cmd setting) (dev w)) as [out0 d0] eqn:E0.
  destruct (already_set out0 value) eqn:A0.
  { injection H as <-. cbn. split; [by rewrite last_snoc |].
    destruct (Hrow _ A0) as (row & ?). exists (dev w), row.
    by rewrite E0. }
  rewrite bind_unfold in H. cbn [dev emit set_dev] in H.
  destruct (exec env (set_setting_cmd setting value) d0) as [out1 d1].
  destruct (negb _); [discriminate H |].
  rewrite bind_unfold in H. cbn [dev emit set_dev] in H.
  destruct (exec env (get_setting_cmd setting) d1) as [out2 d2] eqn:E2.
  injection H as Hv <-. cbn. split; [by rewrite last_snoc |].
  apply verify_set_already in Hv. destruct (Hrow _ Hv) as (row & ?).
  exists d1, row. by rewrite E2.
Qed.

End Verified.

Section Camera.

Context {D : Type} (env : Env D).

(** X19: the camera is taken as found exactly when some line of the
    output of [gphoto2 --auto-detect] contains [Canon EOS 80D]; when it is
    found the checks end with [verifyBulbMode], and when it is not they
    answer [False] right after the detection, without asking the camera
    for its shutter speed. *)
Theorem checks_camera (w : World D) :
  let detect := Shell "gphoto2 --auto-detect" in
  let w_k := (killMonitorProcess env (initRelayControl w).2).2 in
  let out := (exec env detect (dev w_k)).1 in
  let w_c := emit (ERun detect) (set_dev (exec env detect (dev w_k)).2 w_k) in
  (camera_found out = true ↔
   ∃ line, line ∈ lines_of out ∧ Py.contains "Canon EOS 80D" line = true) ∧
  checks env w =
    if camera_found out then verifyBulbMode env w_c else (Ok false, w_c).
Proof.
  intros detect w_k out w_c. split.
  - unfold camera_found. apply existsb_elem_of.
  - unfold checks. cbv zeta.
    rewrite (bind_Ok _ _ w true (initRelayControl w).2) by reflexivity.
    destruct (killMonitorProcess_returns env (initRelayControl w).2)
      as (w1 & Hk).
    rewrite (bind_Ok _ _ _ _ _ Hk).
    assert (w1 = w_k) as -> by (subst w_k; by rewrite Hk).
    assert (Hc : verifyCameraConnect env w_k = (Ok (camera_found out), w_c)).
    { unfold verifyCameraConnect, subprocess_run. rewrite bind_unfold.
      subst out w_c. fold detect. by destruct (exec env detect (dev w_k)). }
    rewrite (bind_Ok _ _ _ _ _ Hc). by destruct (camera_found out).
Qed.

End Camera.

(** ** Runs on the simulated camera *)

(** A [single] run without light. *)
Lemma main_keeps_dark_witness :
  let w0 := Sim.boot (Sim.camera ["subject = leaf"; "shutterspeed = 2";
                                  "aperture = 7.1"; "iso = 100";
                                  "lights = off"] [true]) in
  relay (main (Sim.env 1) "single" w0).2 = false ∧
  ∃ l, trace (main (Sim.env 1) "single" w0).2 = (trace w0 ++ l)%list ∧
       EGpioOut true ∉ l.
Proof.
  intros w0. apply main_keeps_dark; [done |].
  intros text conf Ht Hp.
  assert (E : read_file (Sim.env 1) ("single" +:+ ".conf")
                (dev (checks (Sim.env 1) w0).2)
              = Some (Sim.conf_text (dev w0)))
    by (vm_compute; reflexivity).
  assert (text = Sim.conf_text (dev w0)) as -> by congruence.
  assert (Hl : match parse_conf (Sim.conf_text (dev w0)) with
               | Ok conf => conf !! "lights"
               | Raise _ => None
               end = Some "off")
    by (vm_compute; reflexivity).
  rewrite Hp in Hl. by rewrite Hl.
Defined.

(** With the light asked for and no stamp given: an aperture that is in no
    row of the table ends the exposure after the warm-up and the clock
    reading, with nothing sent to the camera; a listed aperture followed by
    an ISO that is in no row ends it after the aperture was programmed. *)
Lemma singleCapture_unprogrammed_witness :
  let w := Sim.boot (Sim.camera [] [true]) in
  let w0 := tick (emit (ESleep 3) (emit (EGpioOut true) (set_relay true w))) in
  let w1 := (setParameterByValue (Sim.env 1) "aperture" "2.8" w0).2 in
  singleCapture (Sim.env 1) 10 "2" "9.9" "100" "leaf" None "on" w
    = (Ok false, w0) ∧
  singleCapture (Sim.env 1) 10 "2" "2.8" "9999" "leaf" None "on" w
    = (Ok false, w1) ∧
  trace w1 =
    [EGpioOut true; ESleep 3;
     ERun (get_setting_cmd "aperture");
     ERun (set_setting_cmd "aperture" "2.8");
     ERun (get_setting_cmd "aperture")].
Proof.
  intros w w0 w1.
  assert (Hq : to_float (Sim.env 1) "2" = Some 2%Q)
    by (vm_compute; reflexivity).
  split; [| split].
  - destruct (singleCapture_unprogrammed (Sim.env 1) 10 "2" "9.9" "100"
                "leaf" None "on" 2%Q w w0 w0 Hq) as [H _].
    apply H. vm_compute. reflexivity.
  - destruct (singleCapture_unprogrammed (Sim.env 1) 10 "2" "2.8" "9999"
                "leaf" None "on" 2%Q w w1 w1 Hq) as [_ H].
    apply H; vm_compute; reflexivity.
  - vm_compute. reflexivity.
Defined.

(** Two cycles of which the first leaves no image. *)
Lemma seriesCapture_goes_on_witness :
  let w0 := Sim.boot (Sim.camera [] [false; true]) in
  let w1 := (singleCapture (Sim.env 5) 10 "2" "7.1" "100" "leaf"
               (Some "1970-01-01_00:00:00") "off" (tick (tick w0))).2 in
  seriesCapture (Sim.env 5) 60 120 2 10 "2" "7.1" "100" "leaf" "off" w0 =
  seriesCapture (Sim.env 5) 60 120 (2 - 1) 10 "2" "7.1" "100" "leaf" "off"
    (emit (ESleep (60 - (clock (Sim.env 5) (ticks w1)
                         - clock (Sim.env 5) (S (ticks w0)))))
       (tick w1)).
Proof.
  intros w0 w1.
  apply (seriesCapture_goes_on (Sim.env 5) 60 10 "2" "7.1" "100" "leaf"
           "off" 120 2 false w0 w1).
  - vm_compute. reflexivity.
  - vm_compute. discriminate.
  - lia.
Defined.

(** Half an hour asked for at one exposure per hour. *)
Lemma short_duration_no_exposure_witness :
  let w0 := Sim.boot (Sim.camera [] []) in
  seriesCapture (Sim.env 1) 3600 1800 (Py.trunc (1800 / 3600)) 10 "2" "7.1"
    "100" "leaf" "off" w0 = (Ok tt, w0) ∧
  dualSeriesCapture (Sim.env 1) 3600 1800 (Py.trunc (1800 / 3600)) 10 "2"
    "10" "7.1" "2.8" "100" "400" "leaf" w0 = (Ok tt, w0).
Proof.
  intros w0.
  apply (short_duration_no_exposure (Sim.env 1) 3600 10 1800);
    vm_compute; reflexivity.
Defined.

(** Three cycles asked for, the first light exposure leaves no image. *)
Lemma dualSeriesCapture_returns_lit_witness :
  let w0 := Sim.boot (Sim.camera [] [true; false]) in
  relay (dualSeriesCapture (Sim.env 1) 60 180 3 10 "2" "10" "7.1" "2.8"
           "100" "400" "leaf" w0).2 = true.
Proof.
  intros w0.
  apply (dualSeriesCapture_returns_lit (Sim.env 1) 60 10 180 3 "2" "10"
           "7.1" "2.8" "100" "400" "leaf" w0); [lia |].
  vm_compute. reflexivity.
Defined.

(** A dark exposure of 100 s in a cycle of 60 s. *)
Lemma dualSeriesCapture_overrun_witness :
  let w0 := Sim.boot (Sim.camera [] [true; true]) in
  (dualSeriesCapture (Sim.env 100) 60 180 3 10 "2" "10" "7.1" "2.8" "100"
     "400" "leaf" w0).1 = Raise ValueError ∧
  relay (dualSeriesCapture (Sim.env 100) 60 180 3 10 "2" "10" "7.1" "2.8"
           "100" "400" "leaf" w0).2 = true.
Proof.
  intros w0.
  pose (w_c := (singleCapture (Sim.env 100) 10 "10" "2.8" "400" "leaf"
                  (Some "1970-01-01_00:00:00") "off"
                  (tick (emit (EGpioOut false) (set_relay false w0)))).2).
  destruct (dualSeriesCapture_overrun (Sim.env 100) 60 180 3 10 "2" "10"
              "7.1" "2.8" "100" "400" "leaf" true w0 w_c) as [H Hr].
  - vm_compute. reflexivity.
  - vm_compute. reflexivity.
  - lia.
  - split; [by rewrite H | exact Hr].
Defined.

(** A table whose only row has no TAB. *)
Lemma setParameterByValue_bad_table_witness :
  let env := @Build_Env Sim.state Sim.exec Sim.files (λ _ d, Some d)
               (λ _ _, Some "2.8") (λ n, inject_Z (Z.of_nat n))
               Sim.to_float Sim.strftime in
  let w0 := Sim.boot (Sim.camera [] []) in
  setParameterByValue env "iso" "100" w0 = (Raise IndexError, w0).
Proof.
  intros env w0.
  apply (setParameterByValue_bad_table env "iso" "100" "2.8" "2.8");
    [set_solver | reflexivity | reflexivity |].
  left. apply Exists_cons_hd. split; reflexivity.
Defined.

(** [iso = 100 # camera] is read as [iso = 100]. *)
Lemma conf_line_trailing_comment_witness :
  conf_line ∅ ("iso = 100 " +:+ "#" +:+ " camera") = conf_line ∅ "iso = 100 ".
Proof.
  apply conf_line_trailing_comment; [reflexivity |].
  vm_compute. discriminate.
Defined.

(** A [single] file that gives the subject alone. *)
Lemma main_single_missing_key_witness :
  let w0 := Sim.boot (Sim.camera ["subject = leaf"] [true]) in
  (main (Sim.env 1) "single" w0).1 = Raise KeyError ∧
  relay (main (Sim.env 1) "single" w0).2 = false.
Proof.
  intros w0.
  pose (conf := match parse_conf (Sim.conf_text (dev w0)) with
                | Ok conf => conf
                | Raise _ => ∅
                end).
  assert (Hp : parse_conf (Sim.conf_text (dev w0)) = Ok conf)
    by (vm_cast_no_check (@eq_refl _ (Ok conf))).
  assert (Hn : conf !! "aperture" = None)
    by (vm_cast_no_check (@eq_refl (option string) None)).
  destruct (main_single_missing_key (Sim.env 1) "aperture"
              (Sim.conf_text (dev w0)) conf w0) as (H1 & H2 & _).
  - vm_compute. reflexivity.
  - exact Hp.
  - set_solver.
  - exact Hn.
  - by split.
Defined.

(** A [series] file with [interval = 0]. *)
Lemma main_zero_interval_witness :
  let w0 := Sim.boot (Sim.camera ["subject = leaf"; "interval = 0";
                                  "duration = 1"; "shutterspeed = 2";
                                  "aperture = 7.1"; "iso = 100";
                                  "lights = off"] [true]) in
  (main (Sim.env 1) "series" w0).1 = Raise ZeroDivisionError ∧
  relay (main (Sim.env 1) "series" w0).2 = false.
Proof.
  intros w0.
  pose (conf := match parse_conf (Sim.conf_text (dev w0)) with
                | Ok conf => conf
                | Raise _ => ∅
                end).
  assert (Hp : parse_conf (Sim.conf_text (dev w0)) = Ok conf)
    by (vm_cast_no_check (@eq_refl _ (Ok conf))).
  assert (Hs : conf !! "subject" = Some "leaf")
    by (vm_cast_no_check (@eq_refl (option string) (Some "leaf"))).
  assert (Hi : conf !! "interval" = Some "0")
    by (vm_cast_no_check (@eq_refl (option string) (Some "0"))).
  assert (Hd : conf !! "duration" = Some "1")
    by (vm_cast_no_check (@eq_refl (option string) (Some "1"))).
  destruct (main_zero_interval (Sim.env 1) "series"
              (Sim.conf_text (dev w0)) conf "leaf" "0" "1" 0%Q 1%Q w0)
    as (H1 & H2 & _).
  - by left.
  - vm_compute. reflexivity.
  - exact Hp.
  - exact Hs.
  - exact Hi.
  - exact Hd.
  - vm_compute. reflexivity.
  - vm_compute. reflexivity.
  - reflexivity.
  - by split.
Defined.

(** A camera at f/5.6 asked for f/2.8. *)
Lemma setParameterByValue_verified_witness :
  let w0 := Sim.boot (Sim.camera [] []) in
  let w1 := (setParameterByValue (Sim.env 1) "aperture" "2.8" w0).2 in
  last (trace w1) = Some (ERun (get_setting_cmd "aperture")) ∧
  Sim.aperture (dev w1) = "2.8".
Proof.
  intros w0 w1.
  destruct (setParameterByValue_verified (Sim.env 1) "aperture" "2.8" w0 w1)
    as (Hlast & _); [vm_compute; reflexivity |].
  split; [exact Hlast | vm_compute; reflexivity].
Defined.

(** ** The names of the two images of a cycle, as the camera is asked for
    them *)

#[global] Hint Extern 1 (asks_for _ _) =>
  (intros ? ? ?; discriminate) : frames.

Section Asking.

Context {D : Type} (env : Env D).

(** The commands of a programming step are the read and the write of its
    setting. *)
Lemma setParameterByValue_emits_own (P : event → Prop) setting value :
  P (ERun (get_setting_cmd setting)) →
  P (ERun (set_setting_cmd setting value)) →
  keeps (emits P) (setParameterByValue env setting value).
Proof.
  intros P_get P_set.
  assert (Hprog : keeps (emits P) (program_setting env setting value)).
  { unfold program_setting. frame; by apply subprocess_run_emits. }
  unfold setParameterByValue.
  destruct (decide (setting ∈ ["aperture"; "iso"])) as [Hs | Hs].
  - rewrite (bool_decide_eq_true_2 _ Hs). cbn [negb].
    assert (Hcase : setting = "aperture" ∨ setting = "iso").
    { apply elem_of_cons in Hs as [-> | Hs]; [by left |].
      apply elem_of_cons in Hs as [-> | Hs]; [by right |].
      by apply elem_of_nil in Hs. }
    pose proof (loadconfigurableParameterDicts_emits env P).
    destruct Hcase as [-> | ->]; cbn [String.eqb Ascii.eqb Bool.eqb]; frame.
  - rewrite (bool_decide_eq_false_2 _ Hs). cbn [negb]. frame.
Qed.

(** Whatever its outcome, an exposure sends no shutter command but the one
    for the file named after its own arguments. *)
Lemma singleCapture_asks wait_time exposure_time aperture iso subject_name
    timestamp lights :
  keeps (emits (asks_for (file_of env subject_name timestamp exposure_time
                            aperture iso)))
    (singleCapture env wait_time exposure_time aperture iso subject_name
       (Some timestamp) lights).
Proof.
  unfold singleCapture. frame.
  - apply setParameterByValue_emits_own; intros ? ? ?; discriminate.
  - apply setParameterByValue_emits_own; intros ? ? ?; discriminate.
  - apply subprocess_run_emits. intros file rest [= <- _].
    repeat match goal with
           | H : ∃ _ _, mret _ _ = _ |- _ =>
               destruct H as (? & ? & [= <-])
           | H : ∃ _ _, float _ _ _ = _ |- _ =>
               destruct H as (? & ? & H); apply float_Ok in H as [H _]
           end.
    unfold file_of.
    match goal with
    | |- ∃ q, _ ∧ image_name_of _ _ (tag_of ?a) _ _ _ +:+ _ = _ => exists a
    end.
    by split.
Qed.


Section Cycle.

Variables (interval wait_time : Q).
Variables (exposure_time_light exposure_time_dark : string).
Variables (aperture_light aperture_dark iso_light iso_dark : string).
Variable (subject_name : string).

Let cycle :=
  dualSeriesCycle env interval wait_time exposure_time_light
    exposure_time_dark aperture_light aperture_dark iso_light iso_dark
    subject_name.

(** The events of a cycle, whatever its outcome: the relay is driven LOW,
    then come the events of the dark exposure, and, if that exposure
    returns, the relay is driven HIGH and the rest follows.  The shutter
    commands of the first part ask for the dark file and those of the rest
    for the light file, both named with the stamp of the first clock
    reading of the cycle. *)
Lemma dualSeriesCycle_asks (w : World D) :
  let stamp := strftime env (clock env (ticks w)) in
  ∃ l1 l2,
    trace (cycle w).2 = (trace w ++ EGpioOut false :: l1 ++ l2)%list ∧
    (l2 = [] ∨ ∃ l, l2 = EGpioOut true :: l) ∧
    Forall (asks_for (file_of env subject_name stamp exposure_time_dark
                        aperture_dark iso_dark)) l1 ∧
    Forall (asks_for (file_of env subject_name stamp exposure_time_light
                        aperture_light iso_light)) l2.
Proof.
  intros stamp. destruct (cycle w) as [r w'] eqn:H. cbn [snd].
  unfold cycle, dualSeriesCycle in H.
  rewrite (bind_Ok _ _ w tt (emit (EGpioOut false) (set_relay false w)))
    in H by reflexivity.
  rewrite (bind_Ok _ _ _ (clock env (ticks w))
             (tick (emit (EGpioOut false) (set_relay false w))))
    in H by reflexivity.
  unfold now_stamp in H. fold stamp in H.
  rewrite bind_unfold in H.
  destruct (singleCapture env wait_time exposure_time_dark aperture_dark
              iso_dark subject_name (Some stamp) "off" _)
    as [[bd | e] w_c] eqn:Hdark;
    apply singleCapture_asks in Hdark as (l1 & E1 & F1 & _); cbn in E1.
  - rewrite (bind_Ok _ _ w_c (clock env (ticks w_c)) (tick w_c))
      in H by reflexivity.
    rewrite (bind_Ok _ _ (tick w_c) tt
               (emit (EGpioOut true) (set_relay true (tick w_c))))
      in H by reflexivity.
    match type of H with
    | ?m ?w0 = _ =>
        assert (K : keeps (emits (asks_for
                             (file_of env subject_name stamp exposure_time_light
                                aperture_light iso_light))) m)
    end.
    { pose proof (singleCapture_asks wait_time exposure_time_light
                    aperture_light iso_light subject_name stamp "off").
      frame. }
    apply K in H as (l2 & E2 & F2 & _). cbn in E2.
    exists l1, (EGpioOut true :: l2). split; [| split; [| split]].
    + rewrite E2, E1, <- !app_assoc. reflexivity.
    + right. by eexists.
    + exact F1.
    + apply Forall_cons. split; [| exact F2]. intros ? ? ?. discriminate.
  - injection H as _ <-. exists l1, []. split; [| split; [| split]].
    + rewrite E1, <- !app_assoc, app_nil_r. reflexivity.
    + by left.
    + exact F1.
    + apply Forall_nil_2.
Qed.

End Cycle.


End Asking.


